(** * ControlInteractivity: pointer handling of the terminal control

    A shallow embedding of
    [src/cascadia/TerminalControl/ControlInteractivity.cpp]: the click
    counter, the three pointer handlers ([PointerPressed], [PointerMoved],
    [PointerReleased]) and their helpers, followed by the properties of
    the pointer-interaction specification that concern them.

    - Screen coordinates are [winrt::Windows::Foundation::Point], a pair of
      IEEE-754 binary32 numbers; they are modelled with [spec_float] at
      precision 24 and the arithmetic of [SpecFloat].
    - Timestamps are [uint64_t] and the click counter is [unsigned int];
      both are [Z] with the wrap-around written out where the code can
      wrap.
    - The handlers mutate the members of the object and call into
      [_core]; they are written in a small monad that threads the members,
      logs the calls made on the core (and the two events raised to the
      host) and propagates a thrown [HRESULT].
    - [_core] is an external collaborator: what it answers to the queries
      of one handler invocation is a record [Core] given with the event. *)

From Stdlib Require Import ZArith List String Bool Lia.
From Stdlib Require Import Floats.SpecFloat.
Import ListNotations.
Local Open Scope Z_scope.

(** ** Numbers *)

(** [float]: IEEE-754 binary32. *)
Module F32.
Definition prec : Z := 24.
Definition emax : Z := 128.
Definition float := spec_float.

Definition of_Z (z : Z) : float := binary_normalize prec emax z 0 false.
Definition add : float -> float -> float := SFadd prec emax.
Definition sub : float -> float -> float := SFsub prec emax.
Definition mul : float -> float -> float := SFmul prec emax.
Definition div : float -> float -> float := SFdiv prec emax.
Definition sqrt : float -> float := SFsqrt prec emax.
Definition abs : float -> float := SFabs.
Definition eqb : float -> float -> bool := SFeqb.
Definition ltb : float -> float -> bool := SFltb.
Definition leb : float -> float -> bool := SFleb.
End F32.

(** [double]: IEEE-754 binary64.  A binary32 value is a binary64 value
    (the conversion is exact), and [SFadd] rounds its exact sum to the
    precision it is given, so the two share [spec_float]. *)
Module F64.
Definition prec : Z := 53.
Definition emax : Z := 1024.
Definition double := spec_float.

Definition of_Z (z : Z) : double := binary_normalize prec emax z 0 false.
Definition of_float (x : F32.float) : double := x.
Definition add : double -> double -> double := SFadd prec emax.
End F64.

(** [std::signbit] and [std::isnan]. *)
Definition signbit (x : spec_float) : bool :=
  match x with
  | S754_zero s | S754_infinity s | S754_finite s _ _ => s
  | S754_nan => false
  end.
Definition isnan (x : spec_float) : bool :=
  match x with S754_nan => true | _ => false end.

Definition UINT_MOD : Z := 2 ^ 32.
Definition UINT64_MOD : Z := 2 ^ 64.

(** [HRESULT]: a signed 32-bit status, failure when negative. *)
Definition HRESULT := Z.
Definition S_OK : HRESULT := 0.
(* 0x80070216 as a signed 32-bit value *)
Definition INTSAFE_E_ARITHMETIC_OVERFLOW : HRESULT := 2147942934 - UINT_MOD.
Definition ULONGLONG_ERROR : Z := UINT64_MOD - 1.
Definition FAILED (hr : HRESULT) : bool := hr <? 0.

(** [UInt64Sub] of intsafe.h: the difference, or an overflow status when
    the subtrahend is the larger. *)
Definition UInt64Sub (ullMinuend ullSubtrahend : Z) : HRESULT * Z :=
  if ullSubtrahend <=? ullMinuend
  then (S_OK, ullMinuend - ullSubtrahend)
  else (INTSAFE_E_ARITHMETIC_OVERFLOW, ULONGLONG_ERROR).

(** ** Data *)

(** [winrt::Windows::Foundation::Point] and its comparison operators:
    two points are equal when both coordinates compare equal as floats
    (so a point with a NaN coordinate differs from itself). *)
Record Point := { X : F32.float; Y : F32.float }.

Definition Point_eqb (l r : Point) : bool :=
  F32.eqb (X l) (X r) && F32.eqb (Y l) (Y r).
Definition Point_neqb (l r : Point) : bool := negb (Point_eqb l r).

(** [std::optional<Point>] against a [Point]: an empty optional differs
    from every value. *)
Definition optPoint_neqb (o : option Point) (p : Point) : bool :=
  match o with Some q => Point_neqb q p | None => true end.
Definition optPoint_eqb (o : option Point) (p : Point) : bool :=
  match o with Some q => Point_eqb q p | None => false end.

(** [til::point]: a cell of the terminal. *)
Record til_point := { px : Z; py : Z }.
(** [til::size]. *)
Record til_size := { width : Z; height : Z }.

Inductive PointerDeviceType := Touch | Pen | Mouse.

Inductive PointerUpdateKind :=
| Other
| LeftButtonPressed | LeftButtonReleased
| RightButtonPressed | RightButtonReleased
| MiddleButtonPressed | MiddleButtonReleased
| XButton1Pressed | XButton1Released
| XButton2Pressed | XButton2Released.

Definition PointerUpdateKind_eqb (a b : PointerUpdateKind) : bool :=
  match a, b with
  | Other, Other
  | LeftButtonPressed, LeftButtonPressed
  | LeftButtonReleased, LeftButtonReleased
  | RightButtonPressed, RightButtonPressed
  | RightButtonReleased, RightButtonReleased
  | MiddleButtonPressed, MiddleButtonPressed
  | MiddleButtonReleased, MiddleButtonReleased
  | XButton1Pressed, XButton1Pressed
  | XButton1Released, XButton1Released
  | XButton2Pressed, XButton2Pressed
  | XButton2Released, XButton2Released => true
  | _, _ => false
  end.

(** [Windows::Foundation::Rect], of which only the origin is read. *)
Record Rect := { rX : F32.float; rY : F32.float;
                 rWidth : F32.float; rHeight : F32.float }.

(** [PointerPointProperties]. *)
Record PointerPointProperties := {
  IsLeftButtonPressed : bool;
  IsMiddleButtonPressed : bool;
  IsRightButtonPressed : bool;
  UpdateKind : PointerUpdateKind;
  MouseWheelDelta : Z;               (* int32 *)
  IsHorizontalMouseWheel : bool;
  ContactRect : Rect
}.

(** [Windows::UI::Input::PointerPoint]. *)
Record PointerPoint := {
  Position : Point;
  Timestamp : Z;                     (* uint64, microseconds *)
  Properties : PointerPointProperties
}.

(** [ControlKeyStates], through the three predicates the handlers use. *)
Record ControlKeyStates := {
  IsAltPressed : bool;
  IsShiftPressed : bool;
  IsCtrlPressed : bool
}.

(** [TerminalInput::MouseButtonState]. *)
Record MouseButtonState := {
  isLeftButtonDown : bool;
  isMiddleButtonDown : bool;
  isRightButtonDown : bool
}.

Inductive CopyFormat := CopyFormat_HTML | CopyFormat_RTF | CopyFormat_All.

(** The answers of [_core] during one handler invocation.  Every handler
    asks each question at most once and asks all of them before its first
    mutating call, so one record per invocation loses nothing.  The record
    also carries what the C runtime answers to [std::powf]: that function
    is outside this source file and a runtime need not round it correctly,
    so its results are taken as given, like the answers of the core. *)
Record Core := {
  HasSelection : bool;
  CopyOnSelect : bool;
  IsInReadOnlyMode : bool;
  IsVtMouseModeEnabled : bool;
  GetHyperlink : til_point -> string;
  (* [GetFont().GetSize()] scaled by [1 / RendererScale()] with
     [til::math::rounding]: the font cell in device-independent units.
     [til::size::scale] is not part of this source file. *)
  fontSizeInDips : til_size;
  ScrollOffset : Z;                  (* int *)
  (* [LeftClickOnTerminal] takes [_selectionNeedsToBeCopied] by reference:
     what it leaves there, from what it found. *)
  LeftClickOnTerminal_flag : bool -> bool;
  (* what [ControlCore::CopySelectionToClipboard] returns *)
  CopySelectionToClipboard_result : bool;
  (* what [ControlCore::SendMouseEvent] returns *)
  SendMouseEvent_result : bool;
  (* [std::powf (base, exponent)] as the C runtime computes it *)
  powf : F32.float -> F32.float -> F32.float
}.

(** What a handler does to the outside: the mutating calls on [_core] and
    the two events raised to the host, in program order. *)
Inductive CoreCall :=
| SendMouseEvent (terminalPosition : til_point) (uiButton : Z)
    (modifiers : ControlKeyStates) (sWheelDelta : Z) (state : MouseButtonState)
| LeftClickOnTerminal (terminalPosition : til_point) (numberOfClicks : Z)
    (altEnabled shiftEnabled isOnOriginalPosition : bool)
    (selectionNeedsToBeCopied : bool)
| SetSelectionAnchor (terminalPosition : til_point)
| SetEndSelectionPoint (terminalPosition : til_point)
| UpdateHoveredCell (terminalPosition : til_point)
| UserScrollViewport (newValue : F64.double)
| CoreCopySelectionToClipboard (singleLine : bool) (formats : option CopyFormat)
| PasteFromClipboard
| OpenHyperlink (uri : string).

(** The members of [ControlInteractivity].  The class declaration is in
    ControlInteractivity.h; the stored positions are [std::optional], as
    the handlers test them for a value, and so is the last click: a click
    with no click before it differs from it. *)
Record ControlInteractivity := {
  _touchAnchor : option Point;
  _multiClickTimer : Z;              (* Timestamp *)
  _multiClickCounter : Z;            (* unsigned int *)
  _lastMouseClickTimestamp : Z;      (* Timestamp *)
  _lastMouseClickPos : option Point;
  _singleClickTouchdownPos : option Point;
  _singleClickTouchdownTerminalPos : option til_point;
  _lastMouseClickPosNoSelection : option Point;
  _selectionNeedsToBeCopied : bool
}.

(** The constructor: its initialiser list empties the anchor, the last
    click and the copy flag; the optionals it does not list start empty;
    the timer and the counter are not set by it and are whatever the
    object holds ([Initialize] sets the timer later). *)
Definition constructed (multiClickTimer multiClickCounter : Z)
  : ControlInteractivity :=
  {| _touchAnchor := None;
     _multiClickTimer := multiClickTimer;
     _multiClickCounter := multiClickCounter;
     _lastMouseClickTimestamp := 0;
     _lastMouseClickPos := None;
     _singleClickTouchdownPos := None;
     _singleClickTouchdownTerminalPos := None;
     _lastMouseClickPosNoSelection := None;
     _selectionNeedsToBeCopied := false |}.

(** ** The handler monad *)

Inductive outcome (A : Type) :=
| Returned (a : A)
| Thrown (hr : HRESULT).
Arguments Returned {A} a.
Arguments Thrown {A} hr.

(** A computation reads and writes the members, appends to the log of
    calls and either returns or throws; what was written and logged before
    a throw stays. *)
Definition M (A : Type) : Type :=
  ControlInteractivity -> outcome A * ControlInteractivity * list CoreCall.

Definition ret {A} (a : A) : M A := fun s => (Returned a, s, []).

Definition bind {A B} (m : M A) (f : A -> M B) : M B :=
  fun s =>
    match m s with
    | (Returned a, s1, l1) =>
        match f a s1 with (r, s2, l2) => (r, s2, l1 ++ l2) end
    | (Thrown hr, s1, l1) => (Thrown hr, s1, l1)
    end.

Notation "x <- m ;; k" := (bind m (fun x => k))
  (at level 61, m at next level, right associativity).
Notation "m ;;; k" := (bind m (fun _ => k))
  (at level 61, right associativity).

Definition get : M ControlInteractivity := fun s => (Returned s, s, []).
Definition modify (f : ControlInteractivity -> ControlInteractivity) : M unit :=
  fun s => (Returned tt, f s, []).
Definition call (c : CoreCall) : M unit := fun s => (Returned tt, s, [c]).
Definition throw {A} (hr : HRESULT) : M A := fun s => (Thrown hr, s, []).
Definition when (b : bool) (m : M unit) : M unit := if b then m else ret tt.

Definition THROW_IF_FAILED (hr : HRESULT) : M unit :=
  if FAILED hr then throw hr else ret tt.

(** Member assignments. *)
Definition set_touchAnchor v s :=
  {| _touchAnchor := v;
     _multiClickTimer := _multiClickTimer s;
     _multiClickCounter := _multiClickCounter s;
     _lastMouseClickTimestamp := _lastMouseClickTimestamp s;
     _lastMouseClickPos := _lastMouseClickPos s;
     _singleClickTouchdownPos := _singleClickTouchdownPos s;
     _singleClickTouchdownTerminalPos := _singleClickTouchdownTerminalPos s;
     _lastMouseClickPosNoSelection := _lastMouseClickPosNoSelection s;
     _selectionNeedsToBeCopied := _selectionNeedsToBeCopied s |}.
Definition set_multiClickCounter v s :=
  {| _touchAnchor := _touchAnchor s;
     _multiClickTimer := _multiClickTimer s;
     _multiClickCounter := v;
     _lastMouseClickTimestamp := _lastMouseClickTimestamp s;
     _lastMouseClickPos := _lastMouseClickPos s;
     _singleClickTouchdownPos := _singleClickTouchdownPos s;
     _singleClickTouchdownTerminalPos := _singleClickTouchdownTerminalPos s;
     _lastMouseClickPosNoSelection := _lastMouseClickPosNoSelection s;
     _selectionNeedsToBeCopied := _selectionNeedsToBeCopied s |}.
Definition set_lastMouseClickTimestamp v s :=
  {| _touchAnchor := _touchAnchor s;
     _multiClickTimer := _multiClickTimer s;
     _multiClickCounter := _multiClickCounter s;
     _lastMouseClickTimestamp := v;
     _lastMouseClickPos := _lastMouseClickPos s;
     _singleClickTouchdownPos := _singleClickTouchdownPos s;
     _singleClickTouchdownTerminalPos := _singleClickTouchdownTerminalPos s;
     _lastMouseClickPosNoSelection := _lastMouseClickPosNoSelection s;
     _selectionNeedsToBeCopied := _selectionNeedsToBeCopied s |}.
Definition set_lastMouseClickPos v s :=
  {| _touchAnchor := _touchAnchor s;
     _multiClickTimer := _multiClickTimer s;
     _multiClickCounter := _multiClickCounter s;
     _lastMouseClickTimestamp := _lastMouseClickTimestamp s;
     _lastMouseClickPos := v;
     _singleClickTouchdownPos := _singleClickTouchdownPos s;
     _singleClickTouchdownTerminalPos := _singleClickTouchdownTerminalPos s;
     _lastMouseClickPosNoSelection := _lastMouseClickPosNoSelection s;
     _selectionNeedsToBeCopied := _selectionNeedsToBeCopied s |}.
Definition set_singleClickTouchdownPos v s :=
  {| _touchAnchor := _touchAnchor s;
     _multiClickTimer := _multiClickTimer s;
     _multiClickCounter := _multiClickCounter s;
     _lastMouseClickTimestamp := _lastMouseClickTimestamp s;
     _lastMouseClickPos := _lastMouseClickPos s;
     _singleClickTouchdownPos := v;
     _singleClickTouchdownTerminalPos := _singleClickTouchdownTerminalPos s;
     _lastMouseClickPosNoSelection := _lastMouseClickPosNoSelection s;
     _selectionNeedsToBeCopied := _selectionNeedsToBeCopied s |}.
Definition set_singleClickTouchdownTerminalPos v s :=
  {| _touchAnchor := _touchAnchor s;
     _multiClickTimer := _multiClickTimer s;
     _multiClickCounter := _multiClickCounter s;
     _lastMouseClickTimestamp := _lastMouseClickTimestamp s;
     _lastMouseClickPos := _lastMouseClickPos s;
     _singleClickTouchdownPos := _singleClickTouchdownPos s;
     _singleClickTouchdownTerminalPos := v;
     _lastMouseClickPosNoSelection := _lastMouseClickPosNoSelection s;
     _selectionNeedsToBeCopied := _selectionNeedsToBeCopied s |}.
Definition set_lastMouseClickPosNoSelection v s :=
  {| _touchAnchor := _touchAnchor s;
     _multiClickTimer := _multiClickTimer s;
     _multiClickCounter := _multiClickCounter s;
     _lastMouseClickTimestamp := _lastMouseClickTimestamp s;
     _lastMouseClickPos := _lastMouseClickPos s;
     _singleClickTouchdownPos := _singleClickTouchdownPos s;
     _singleClickTouchdownTerminalPos := _singleClickTouchdownTerminalPos s;
     _lastMouseClickPosNoSelection := v;
     _selectionNeedsToBeCopied := _selectionNeedsToBeCopied s |}.
Definition set_selectionNeedsToBeCopied v s :=
  {| _touchAnchor := _touchAnchor s;
     _multiClickTimer := _multiClickTimer s;
     _multiClickCounter := _multiClickCounter s;
     _lastMouseClickTimestamp := _lastMouseClickTimestamp s;
     _lastMouseClickPos := _lastMouseClickPos s;
     _singleClickTouchdownPos := _singleClickTouchdownPos s;
     _singleClickTouchdownTerminalPos := _singleClickTouchdownTerminalPos s;
     _lastMouseClickPosNoSelection := _lastMouseClickPosNoSelection s;
     _selectionNeedsToBeCopied := v |}.

(** ** The click counter *)

(** [_NumberOfClicks]: registers a click and returns how many clicks the
    current burst has.  The subtraction of the timestamps is checked and
    its failure is thrown before anything is written. *)
Definition _NumberOfClicks (clickPos : Point) (clickTime : Z) : M Z :=
  s <- get ;;
  let '(hr, delta) := UInt64Sub clickTime (_lastMouseClickTimestamp s) in
  THROW_IF_FAILED hr ;;;
  (if optPoint_neqb (_lastMouseClickPos s) clickPos
      || (_multiClickTimer s <? delta)
   then modify (set_multiClickCounter 1)
   else modify (set_multiClickCounter ((_multiClickCounter s + 1) mod UINT_MOD))) ;;;
  modify (set_lastMouseClickTimestamp clickTime) ;;;
  modify (set_lastMouseClickPos (Some clickPos)) ;;;
  s' <- get ;;
  ret (_multiClickCounter s').

(** ** Helpers of the handlers *)

Definition WM_MOUSEMOVE : Z := 512.      (* 0x0200 *)
Definition WM_LBUTTONDOWN : Z := 513.    (* 0x0201 *)
Definition WM_LBUTTONUP : Z := 514.      (* 0x0202 *)
Definition WM_RBUTTONDOWN : Z := 516.    (* 0x0204 *)
Definition WM_RBUTTONUP : Z := 517.      (* 0x0205 *)
Definition WM_MBUTTONDOWN : Z := 519.    (* 0x0207 *)
Definition WM_MBUTTONUP : Z := 520.      (* 0x0208 *)
Definition WM_MOUSEWHEEL : Z := 522.     (* 0x020A *)

(** [base::saturated_cast<short>] of an [int]. *)
Definition saturated_cast_short (v : Z) : Z :=
  if v <? -32768 then -32768 else if 32767 <? v then 32767 else v.

Definition empty (s : string) : bool :=
  match s with EmptyString => true | String _ _ => false end.

(** [_CanSendVTMouseInput]: Shift suppresses mouse events; otherwise the
    terminal's mouse mode decides. *)
Definition _CanSendVTMouseInput (core : Core) (modifiers : ControlKeyStates)
  : bool :=
  if IsShiftPressed modifiers then false else IsVtMouseModeEnabled core.

(** [_TrySendMouseEvent]: which button changed, the wheel, the buttons
    held; all handed to [SendMouseEvent]. *)
Definition uiButton_of (props : PointerPointProperties) : Z :=
  let uiButton :=
    match UpdateKind props with
    | LeftButtonPressed => WM_LBUTTONDOWN
    | LeftButtonReleased => WM_LBUTTONUP
    | MiddleButtonPressed => WM_MBUTTONDOWN
    | MiddleButtonReleased => WM_MBUTTONUP
    | RightButtonPressed => WM_RBUTTONDOWN
    | RightButtonReleased => WM_RBUTTONUP
    | _ => WM_MOUSEMOVE
    end in
  let sWheelDelta := saturated_cast_short (MouseWheelDelta props) in
  if negb (sWheelDelta =? 0) && negb (IsHorizontalMouseWheel props)
  then WM_MOUSEWHEEL else uiButton.

Definition _TrySendMouseEvent (core : Core) (point : PointerPoint)
    (modifiers : ControlKeyStates) (terminalPosition : til_point) : M bool :=
  let props := Properties point in
  let sWheelDelta := saturated_cast_short (MouseWheelDelta props) in
  let state := {| isLeftButtonDown := IsLeftButtonPressed props;
                  isMiddleButtonDown := IsMiddleButtonPressed props;
                  isRightButtonDown := IsRightButtonPressed props |} in
  call (SendMouseEvent terminalPosition (uiButton_of props) modifiers
          sWheelDelta state) ;;;
  ret (SendMouseEvent_result core).

(** [_HyperlinkHandler]: raises [OpenHyperlink] with the URI. *)
Definition _HyperlinkHandler (uri : string) : M unit :=
  call (OpenHyperlink uri).

(** [_SetEndSelectionPoint]. *)
Definition _SetEndSelectionPoint (terminalPosition : til_point) : M unit :=
  call (SetEndSelectionPoint terminalPosition) ;;;
  modify (set_selectionNeedsToBeCopied true).

(** [CopySelectionToClipboard]: [_core] is made by the constructor and is
    never null, so the guarded branch is the one that runs. *)
Definition CopySelectionToClipboard (core : Core) (singleLine : bool)
    (formats : option CopyFormat) : M bool :=
  modify (set_selectionNeedsToBeCopied false) ;;;
  call (CoreCopySelectionToClipboard singleLine formats) ;;;
  ret (CopySelectionToClipboard_result core).

(** [PasteTextFromClipboard]: raises the paste event to the host. *)
Definition PasteTextFromClipboard : M unit := call PasteFromClipboard.

Definition MAX_CLICK_COUNT : Z := 3.

(** The click count folded into 1, 2, 3, 1, 2, 3, ... *)
Definition multiClickMapper (clickCount : Z) : Z :=
  if MAX_CLICK_COUNT <? clickCount
  then ((clickCount + MAX_CLICK_COUNT - 1) mod UINT_MOD) mod MAX_CLICK_COUNT + 1
  else clickCount.

(** The distance of the cursor from the touchdown point:
    [sqrtf (powf (dx, 2) + powf (dy, 2))], the exponent an [int] 2
    converted to [float]; [sqrtf] and the sum round correctly, [powf] is
    the runtime's. *)
Definition distance (core : Core) (cursorPosition touchdownPoint : Point)
  : F32.float :=
  F32.sqrt
    (F32.add (powf core (F32.sub (X cursorPosition) (X touchdownPoint))
                        (F32.of_Z 2))
             (powf core (F32.sub (Y cursorPosition) (Y touchdownPoint))
                        (F32.of_Z 2))).

(** A quarter of the smaller axis of the font cell. *)
Definition quarterCell (fontSizeInDips : til_size) : F32.float :=
  F32.div (F32.of_Z (Z.min (width fontSizeInDips) (height fontSizeInDips)))
          (F32.of_Z 4).

(** Half a row of text. *)
Definition halfRow (fontSizeInDips : til_size) : F32.float :=
  F32.div (F32.of_Z (height fontSizeInDips)) (F32.of_Z 2).

(** [-1.0f * (dy / height)]. *)
Definition numRows (dy : F32.float) (fontSizeInDips : til_size) : F32.float :=
  F32.mul (F32.of_Z (-1)) (F32.div dy (F32.of_Z (height fontSizeInDips))).

Definition is_mouse_or_pen (type : PointerDeviceType) : bool :=
  match type with Mouse | Pen => true | Touch => false end.
Definition is_touch (type : PointerDeviceType) : bool :=
  match type with Touch => true | _ => false end.

Definition contactPoint (point : PointerPoint) : Point :=
  let contactRect := ContactRect (Properties point) in
  {| X := rX contactRect; Y := rY contactRect |}.

(** ** The handlers *)

Definition PointerPressed (core : Core) (point : PointerPoint)
    (modifiers : ControlKeyStates) (focused : bool)
    (terminalPosition : til_point) (type : PointerDeviceType) : M unit :=
  if is_mouse_or_pen type then
    let altEnabled := IsAltPressed modifiers in
    let shiftEnabled := IsShiftPressed modifiers in
    let ctrlEnabled := IsCtrlPressed modifiers in
    let cursorPosition := Position point in
    (* GH#9396: hyperlinks are prioritized over VT mouse events *)
    let hyperlink := GetHyperlink core terminalPosition in
    if IsLeftButtonPressed (Properties point)
       && ctrlEnabled && negb (empty hyperlink)
    then
      clickCount <- _NumberOfClicks cursorPosition (Timestamp point) ;;
      when (clickCount =? 1) (_HyperlinkHandler hyperlink)
    else if _CanSendVTMouseInput core modifiers then
      _TrySendMouseEvent core point modifiers terminalPosition ;;; ret tt
    else if IsLeftButtonPressed (Properties point) then
      clickCount <- _NumberOfClicks cursorPosition (Timestamp point) ;;
      let mapped := multiClickMapper clickCount in
      when ((mapped =? 1) && negb (HasSelection core))
        (modify (set_singleClickTouchdownPos (Some cursorPosition)) ;;;
         modify (set_singleClickTouchdownTerminalPos (Some terminalPosition)) ;;;
         modify (set_lastMouseClickPosNoSelection (Some cursorPosition))) ;;;
      s <- get ;;
      let isOnOriginalPosition :=
        optPoint_eqb (_lastMouseClickPosNoSelection s) cursorPosition in
      call (LeftClickOnTerminal terminalPosition mapped altEnabled
              shiftEnabled isOnOriginalPosition
              (_selectionNeedsToBeCopied s)) ;;;
      modify (set_selectionNeedsToBeCopied
                (LeftClickOnTerminal_flag core (_selectionNeedsToBeCopied s)))
    else if IsRightButtonPressed (Properties point) then
      (* CopyOnSelect right click always pastes *)
      if CopyOnSelect core || negb (HasSelection core)
      then PasteTextFromClipboard
      else CopySelectionToClipboard core shiftEnabled None ;;; ret tt
    else ret tt
  else if is_touch type then
    modify (set_touchAnchor (Some (contactPoint point)))
  else ret tt.

Definition PointerMoved (core : Core) (point : PointerPoint)
    (modifiers : ControlKeyStates) (focused : bool)
    (terminalPosition : til_point) (type : PointerDeviceType) : M unit :=
  let cursorPosition := Position point in
  if is_mouse_or_pen type then
    (if focused && negb (IsInReadOnlyMode core)
        && _CanSendVTMouseInput core modifiers
     then _TrySendMouseEvent core point modifiers terminalPosition ;;; ret tt
     else if focused && IsLeftButtonPressed (Properties point) then
       s <- get ;;
       match _singleClickTouchdownPos s with
       | Some touchdownPoint =>
           when (F32.leb (quarterCell (fontSizeInDips core))
                         (distance core cursorPosition touchdownPoint))
             (call (SetSelectionAnchor terminalPosition) ;;;
              (* stop tracking the touchdown point *)
              modify (set_singleClickTouchdownPos None) ;;;
              modify (set_singleClickTouchdownTerminalPos None))
       | None => ret tt
       end ;;;
       _SetEndSelectionPoint terminalPosition
     else ret tt) ;;;
    call (UpdateHoveredCell terminalPosition)
  else
    s <- get ;;
    if focused && is_touch type then
      match _touchAnchor s with
      | Some anchor =>
          let newTouchPoint := contactPoint point in
          (* the difference between the point dragged to and the anchor *)
          let dy := F32.sub (Y newTouchPoint) (Y anchor) in
          (* more than a half row of text *)
          when (F32.ltb (halfRow (fontSizeInDips core)) (F32.abs dy))
            (let currentOffset := F64.of_Z (ScrollOffset core) in
             let newValue :=
               F64.add (F64.of_float (numRows dy (fontSizeInDips core)))
                       currentOffset in
             call (UserScrollViewport newValue) ;;;
             (* this point is the new scroll anchor *)
             modify (set_touchAnchor (Some newTouchPoint)))
      | None => ret tt
      end
    else ret tt.

(** [PointerReleased].  The forwarded release returns from the handler;
    the inner computation tells whether it did. *)
Definition PointerReleased (core : Core) (point : PointerPoint)
    (modifiers : ControlKeyStates) (focused : bool)
    (terminalPosition : til_point) (type : PointerDeviceType) : M unit :=
  returned <-
    (if is_mouse_or_pen type then
       if negb (IsInReadOnlyMode core) && _CanSendVTMouseInput core modifiers
       then
         _TrySendMouseEvent core point modifiers terminalPosition ;;;
         ret true
       else
         s <- get ;;
         when (CopyOnSelect core
               && PointerUpdateKind_eqb (UpdateKind (Properties point))
                    LeftButtonReleased
               && _selectionNeedsToBeCopied s)
           (CopySelectionToClipboard core false None ;;; ret tt) ;;;
         ret false
     else if is_touch type then
       modify (set_touchAnchor None) ;;; ret false
     else ret false) ;;
  if returned then ret tt
  else
    modify (set_singleClickTouchdownPos None) ;;;
    modify (set_singleClickTouchdownTerminalPos None).

(** ** Streams of pointer events *)

Inductive PointerEventKind := Pressed | Moved | Released.

(** One delivery of a pointer event: the handler, its arguments and what
    the core answers while it runs. *)
Record PointerEvent := {
  ev_kind : PointerEventKind;
  ev_core : Core;
  ev_point : PointerPoint;
  ev_modifiers : ControlKeyStates;
  ev_focused : bool;
  ev_terminalPosition : til_point;
  ev_type : PointerDeviceType
}.

Definition handle (e : PointerEvent) : M unit :=
  let h := match ev_kind e with
           | Pressed => PointerPressed
           | Moved => PointerMoved
           | Released => PointerReleased
           end in
  h (ev_core e) (ev_point e) (ev_modifiers e) (ev_focused e)
    (ev_terminalPosition e) (ev_type e).

Definition result_of {A} (r : outcome A * ControlInteractivity * list CoreCall)
  : outcome A := fst (fst r).
Definition state_of {A} (r : outcome A * ControlInteractivity * list CoreCall)
  : ControlInteractivity := snd (fst r).
Definition calls_of {A} (r : outcome A * ControlInteractivity * list CoreCall)
  : list CoreCall := snd r.

(** The members after a stream of events, each handled in turn on what
    the one before left (a handler that throws leaves what it had written
    up to there). *)
Fixpoint run (es : list PointerEvent) (s : ControlInteractivity)
  : ControlInteractivity :=
  match es with
  | [] => s
  | e :: es' => run es' (state_of (handle e s))
  end.

(** ** Reading the log of calls *)

Definition isSendMouseEvent (c : CoreCall) : bool :=
  match c with SendMouseEvent _ _ _ _ _ => true | _ => false end.
Definition isLeftClickOnTerminal (c : CoreCall) : bool :=
  match c with LeftClickOnTerminal _ _ _ _ _ _ => true | _ => false end.
Definition isOpenHyperlink (c : CoreCall) : bool :=
  match c with OpenHyperlink _ => true | _ => false end.
Definition isCopy (c : CoreCall) : bool :=
  match c with CoreCopySelectionToClipboard _ _ => true | _ => false end.
Definition isSetEndSelectionPoint (c : CoreCall) : bool :=
  match c with SetEndSelectionPoint _ => true | _ => false end.
Definition isUserScrollViewport (c : CoreCall) : bool :=
  match c with UserScrollViewport _ => true | _ => false end.

(** How many calls of a kind a handler made. *)
Definition count_calls (p : CoreCall -> bool) (l : list CoreCall) : nat :=
  List.length (List.filter p l).

(** The event was handed to [SendMouseEvent]. *)
Definition forwarded (l : list CoreCall) : bool := existsb isSendMouseEvent l.

(** The [SendMouseEvent] call that [_TrySendMouseEvent] makes. *)
Definition mouseEventOf (point : PointerPoint) (modifiers : ControlKeyStates)
    (terminalPosition : til_point) : CoreCall :=
  SendMouseEvent terminalPosition (uiButton_of (Properties point)) modifiers
    (saturated_cast_short (MouseWheelDelta (Properties point)))
    {| isLeftButtonDown := IsLeftButtonPressed (Properties point);
       isMiddleButtonDown := IsMiddleButtonPressed (Properties point);
       isRightButtonDown := IsRightButtonPressed (Properties point) |}.

(** The press reaches [_NumberOfClicks]: a left press on a mouse or a pen
    that either activates a hyperlink or is not forwarded. *)
Definition registersClick (e : PointerEvent) : bool :=
  match ev_kind e with
  | Pressed =>
      is_mouse_or_pen (ev_type e)
      && IsLeftButtonPressed (Properties (ev_point e))
      && ((IsCtrlPressed (ev_modifiers e)
           && negb (empty (GetHyperlink (ev_core e) (ev_terminalPosition e))))
          || negb (_CanSendVTMouseInput (ev_core e) (ev_modifiers e)))
  | _ => false
  end.

(** ** Sample data for the examples *)

Definition pt (x y : Z) : Point := {| X := F32.of_Z x; Y := F32.of_Z y |}.
Definition cell (x y : Z) : til_point := {| px := x; py := y |}.

Definition noModifiers : ControlKeyStates :=
  {| IsAltPressed := false; IsShiftPressed := false; IsCtrlPressed := false |}.
Definition ctrlHeld : ControlKeyStates :=
  {| IsAltPressed := false; IsShiftPressed := false; IsCtrlPressed := true |}.
Definition shiftHeld : ControlKeyStates :=
  {| IsAltPressed := false; IsShiftPressed := true; IsCtrlPressed := false |}.

Definition noRect : Rect :=
  {| rX := F32.of_Z 0; rY := F32.of_Z 0;
     rWidth := F32.of_Z 0; rHeight := F32.of_Z 0 |}.
Definition rectAt (x y : Z) : Rect :=
  {| rX := F32.of_Z x; rY := F32.of_Z y;
     rWidth := F32.of_Z 1; rHeight := F32.of_Z 1 |}.

Definition props (left right : bool) (k : PointerUpdateKind) (r : Rect)
  : PointerPointProperties :=
  {| IsLeftButtonPressed := left; IsMiddleButtonPressed := false;
     IsRightButtonPressed := right; UpdateKind := k;
     MouseWheelDelta := 0; IsHorizontalMouseWheel := false;
     ContactRect := r |}.

Definition pointAt (x y t : Z) (p : PointerPointProperties) : PointerPoint :=
  {| Position := pt x y; Timestamp := t; Properties := p |}.

(** A [powf] for the examples: the correctly rounded square for the
    exponent 2, the only exponent the handlers pass, and NaN for any
    other.  The runtime's own may differ from it in the last place. *)
Definition samplePowf (base exponent : F32.float) : F32.float :=
  if F32.eqb exponent (F32.of_Z 2) then F32.mul base base else S754_nan.

(** A core with a 10 by 20 font cell, no selection, not read-only, mouse
    mode off, no hyperlink anywhere. *)
Definition plainCore : Core :=
  {| HasSelection := false; CopyOnSelect := false;
     IsInReadOnlyMode := false; IsVtMouseModeEnabled := false;
     GetHyperlink := fun _ => EmptyString;
     fontSizeInDips := {| width := 10; height := 20 |};
     ScrollOffset := 7;
     LeftClickOnTerminal_flag := fun b => b;
     CopySelectionToClipboard_result := true;
     SendMouseEvent_result := true;
     powf := samplePowf |}.

Definition withVtMouseMode (c : Core) : Core :=
  {| HasSelection := HasSelection c; CopyOnSelect := CopyOnSelect c;
     IsInReadOnlyMode := IsInReadOnlyMode c; IsVtMouseModeEnabled := true;
     GetHyperlink := GetHyperlink c;
     fontSizeInDips := fontSizeInDips c; ScrollOffset := ScrollOffset c;
     LeftClickOnTerminal_flag := LeftClickOnTerminal_flag c;
     CopySelectionToClipboard_result := CopySelectionToClipboard_result c;
     SendMouseEvent_result := SendMouseEvent_result c;
     powf := powf c |}.
Definition withReadOnly (c : Core) : Core :=
  {| HasSelection := HasSelection c; CopyOnSelect := CopyOnSelect c;
     IsInReadOnlyMode := true; IsVtMouseModeEnabled := IsVtMouseModeEnabled c;
     GetHyperlink := GetHyperlink c;
     fontSizeInDips := fontSizeInDips c; ScrollOffset := ScrollOffset c;
     LeftClickOnTerminal_flag := LeftClickOnTerminal_flag c;
     CopySelectionToClipboard_result := CopySelectionToClipboard_result c;
     SendMouseEvent_result := SendMouseEvent_result c;
     powf := powf c |}.
Definition withHyperlink (uri : string) (c : Core) : Core :=
  {| HasSelection := HasSelection c; CopyOnSelect := CopyOnSelect c;
     IsInReadOnlyMode := IsInReadOnlyMode c;
     IsVtMouseModeEnabled := IsVtMouseModeEnabled c;
     GetHyperlink := fun _ => uri;
     fontSizeInDips := fontSizeInDips c; ScrollOffset := ScrollOffset c;
     LeftClickOnTerminal_flag := LeftClickOnTerminal_flag c;
     CopySelectionToClipboard_result := CopySelectionToClipboard_result c;
     SendMouseEvent_result := SendMouseEvent_result c;
     powf := powf c |}.
Definition withSelection (copyOnSelect : bool) (c : Core) : Core :=
  {| HasSelection := true; CopyOnSelect := copyOnSelect;
     IsInReadOnlyMode := IsInReadOnlyMode c;
     IsVtMouseModeEnabled := IsVtMouseModeEnabled c;
     GetHyperlink := GetHyperlink c;
     fontSizeInDips := fontSizeInDips c; ScrollOffset := ScrollOffset c;
     LeftClickOnTerminal_flag := LeftClickOnTerminal_flag c;
     CopySelectionToClipboard_result := CopySelectionToClipboard_result c;
     SendMouseEvent_result := SendMouseEvent_result c;
     powf := powf c |}.

(** A left press and a move with the left button held, on the plain core;
    for touch the contact is where the pointer is. *)
Definition pressedAt (type : PointerDeviceType) (x y t : Z) : PointerEvent :=
  {| ev_kind := Pressed; ev_core := plainCore;
     ev_point := pointAt x y t (props true false LeftButtonPressed (rectAt x y));
     ev_modifiers := noModifiers; ev_focused := true;
     ev_terminalPosition := cell 1 2; ev_type := type |}.
Definition movedTo (type : PointerDeviceType) (x y t : Z) : PointerEvent :=
  {| ev_kind := Moved; ev_core := plainCore;
     ev_point := pointAt x y t (props true false Other (rectAt x y));
     ev_modifiers := noModifiers; ev_focused := true;
     ev_terminalPosition := cell 1 2; ev_type := type |}.

(** The object after [Initialize] on a system whose double-click time is
    500 ms. *)
Definition fresh : ControlInteractivity := constructed 500000 0.

(** ** What a registered click leaves *)

(** The count a registered click gets. *)
Definition nextCount (s : ControlInteractivity) (clickPos : Point)
    (clickTime : Z) : Z :=
  if optPoint_neqb (_lastMouseClickPos s) clickPos
     || (_multiClickTimer s <? clickTime - _lastMouseClickTimestamp s)
  then 1
  else (_multiClickCounter s + 1) mod UINT_MOD.

(** The members after a registered click. *)
Definition clicked (s : ControlInteractivity) (clickPos : Point)
    (clickTime : Z) : ControlInteractivity :=
  set_lastMouseClickPos (Some clickPos)
    (set_lastMouseClickTimestamp clickTime
       (set_multiClickCounter (nextCount s clickPos clickTime) s)).


(** ** Start-up *)

Definition set_multiClickTimer v s :=
  {| _touchAnchor := _touchAnchor s;
     _multiClickTimer := v;
     _multiClickCounter := _multiClickCounter s;
     _lastMouseClickTimestamp := _lastMouseClickTimestamp s;
     _lastMouseClickPos := _lastMouseClickPos s;
     _singleClickTouchdownPos := _singleClickTouchdownPos s;
     _singleClickTouchdownTerminalPos := _singleClickTouchdownTerminalPos s;
     _lastMouseClickPosNoSelection := _lastMouseClickPosNoSelection s;
     _selectionNeedsToBeCopied := _selectionNeedsToBeCopied s |}.

(** [Initialize]: the double-click time of the system, a [UINT] of
    milliseconds, times 1000 in [unsigned int] arithmetic, stored in the
    64-bit timer. *)
Definition Initialize (GetDoubleClickTime : Z) : M unit :=
  modify (set_multiClickTimer ((GetDoubleClickTime * 1000) mod UINT_MOD)).

(** ** More readings of events and calls *)

Definition isUpdateHoveredCell (c : CoreCall) : bool :=
  match c with UpdateHoveredCell _ => true | _ => false end.
Definition isPaste (c : CoreCall) : bool :=
  match c with PasteFromClipboard => true | _ => false end.

(** The six button transitions that have a message of their own. *)
Definition isButtonTransition (k : PointerUpdateKind) : bool :=
  match k with
  | LeftButtonPressed | LeftButtonReleased
  | MiddleButtonPressed | MiddleButtonReleased
  | RightButtonPressed | RightButtonReleased => true
  | _ => false
  end.

(** A press that touches the screen. *)
Definition isTouchPress (e : PointerEvent) : bool :=
  match ev_kind e with
  | Pressed => is_touch (ev_type e)
  | _ => false
  end.

(** A press of the left button of a mouse or a pen while the core has no
    selection. *)
Definition isLeftPressNoSelection (e : PointerEvent) : bool :=
  match ev_kind e with
  | Pressed => is_mouse_or_pen (ev_type e)
               && IsLeftButtonPressed (Properties (ev_point e))
               && negb (HasSelection (ev_core e))
  | _ => false
  end.

(** A burst of clicks at one place: each is registered in turn; the
    counts they get. *)
Fixpoint clickAll (clickPos : Point) (clickTimes : list Z) : M (list Z) :=
  match clickTimes with
  | [] => ret []
  | clickTime :: rest =>
      count <- _NumberOfClicks clickPos clickTime ;;
      counts <- clickAll clickPos rest ;;
      ret (count :: counts)
  end.

(** Each timestamp of the list is at or after the one before it (and the
    first at or after [t0]) and no more than [window] later. *)
Fixpoint paced (window t0 : Z) (clickTimes : list Z) : bool :=
  match clickTimes with
  | [] => true
  | t :: rest => (t0 <=? t) && (t - t0 <=? window) && paced window t rest
  end.

(** The members after a left click that is handled in the control: the
    click is registered; a first click with no selection starts a
    touchdown; the core leaves its verdict in the copy flag. *)
Definition leftClicked (core : Core) (point : PointerPoint)
    (terminalPosition : til_point) (s : ControlInteractivity)
  : ControlInteractivity :=
  let s1 := clicked s (Position point) (Timestamp point) in
  let mapped := multiClickMapper (_multiClickCounter s1) in
  let s2 :=
    if (mapped =? 1) && negb (HasSelection core)
    then set_lastMouseClickPosNoSelection (Some (Position point))
           (set_singleClickTouchdownTerminalPos (Some terminalPosition)
              (set_singleClickTouchdownPos (Some (Position point)) s1))
    else s1 in
  set_selectionNeedsToBeCopied
    (LeftClickOnTerminal_flag core (_selectionNeedsToBeCopied s2)) s2.

(** The call on the core that such a click makes. *)
Definition leftClickCall (core : Core) (point : PointerPoint)
    (modifiers : ControlKeyStates) (terminalPosition : til_point)
    (s : ControlInteractivity) : CoreCall :=
  let s1 := clicked s (Position point) (Timestamp point) in
  let mapped := multiClickMapper (_multiClickCounter s1) in
  let lastNoSelection :=
    if (mapped =? 1) && negb (HasSelection core)
    then Some (Position point)
    else _lastMouseClickPosNoSelection s in
  LeftClickOnTerminal terminalPosition mapped (IsAltPressed modifiers)
    (IsShiftPressed modifiers)
    (optPoint_eqb lastNoSelection (Position point))
    (_selectionNeedsToBeCopied s).

(** The shapes a press can take. *)
Inductive PressShape (core : Core) (point : PointerPoint)
    (modifiers : ControlKeyStates) (terminalPosition : til_point)
    (s : ControlInteractivity)
  : outcome unit * ControlInteractivity * list CoreCall -> Prop :=
| press_touch :
    PressShape core point modifiers terminalPosition s
      (Returned tt, set_touchAnchor (Some (contactPoint point)) s, [])
| press_threw :
    PressShape core point modifiers terminalPosition s
      (Thrown INTSAFE_E_ARITHMETIC_OVERFLOW, s, [])
| press_link : forall l,
    l = [] \/ l = [OpenHyperlink (GetHyperlink core terminalPosition)] ->
    PressShape core point modifiers terminalPosition s
      (Returned tt, clicked s (Position point) (Timestamp point), l)
| press_forwarded :
    PressShape core point modifiers terminalPosition s
      (Returned tt, s, [mouseEventOf point modifiers terminalPosition])
| press_left :
    PressShape core point modifiers terminalPosition s
      (Returned tt, leftClicked core point terminalPosition s,
       [leftClickCall core point modifiers terminalPosition s])
| press_paste :
    PressShape core point modifiers terminalPosition s
      (Returned tt, s, [PasteFromClipboard])
| press_copy :
    PressShape core point modifiers terminalPosition s
      (Returned tt, set_selectionNeedsToBeCopied false s,
       [CoreCopySelectionToClipboard (IsShiftPressed modifiers) None])
| press_nothing :
    PressShape core point modifiers terminalPosition s (Returned tt, s, []).


(** The move of a drag passes the threshold: a touchdown is tracked and
    the cursor is a quarter of the smaller axis of the cell away from it. *)
Definition dragStarts (core : Core) (point : PointerPoint)
    (s : ControlInteractivity) : bool :=
  match _singleClickTouchdownPos s with
  | Some touchdownPoint =>
      F32.leb (quarterCell (fontSizeInDips core))
              (distance core (Position point) touchdownPoint)
  | None => false
  end.

(** The touch move pans: an anchor is set and the contact is more than
    half a row above or below it. *)
Definition touchPans (core : Core) (point : PointerPoint)
    (s : ControlInteractivity) : bool :=
  match _touchAnchor s with
  | Some anchor =>
      F32.ltb (halfRow (fontSizeInDips core))
              (F32.abs (F32.sub (Y (contactPoint point)) (Y anchor)))
  | None => false
  end.

(** The offset a panning touch move asks for. *)
Definition panTarget (core : Core) (point : PointerPoint)
    (s : ControlInteractivity) : F64.double :=
  match _touchAnchor s with
  | Some anchor =>
      F64.add (F64.of_float
                 (numRows (F32.sub (Y (contactPoint point)) (Y anchor))
                          (fontSizeInDips core)))
              (F64.of_Z (ScrollOffset core))
  | None => F64.of_Z (ScrollOffset core)
  end.

(** The release makes the copy of copy-on-select. *)
Definition releaseCopies (core : Core) (point : PointerPoint)
    (s : ControlInteractivity) : bool :=
  CopyOnSelect core
  && PointerUpdateKind_eqb (UpdateKind (Properties point)) LeftButtonReleased
  && _selectionNeedsToBeCopied s.

(** ** A cursor next to the drag threshold *)

Definition withPowf (pow : F32.float -> F32.float -> F32.float) (c : Core)
  : Core :=
  {| HasSelection := HasSelection c; CopyOnSelect := CopyOnSelect c;
     IsInReadOnlyMode := IsInReadOnlyMode c;
     IsVtMouseModeEnabled := IsVtMouseModeEnabled c;
     GetHyperlink := GetHyperlink c;
     fontSizeInDips := fontSizeInDips c; ScrollOffset := ScrollOffset c;
     LeftClickOnTerminal_flag := LeftClickOnTerminal_flag c;
     CopySelectionToClipboard_result := CopySelectionToClipboard_result c;
     SendMouseEvent_result := SendMouseEvent_result c;
     powf := pow |}.

(** The largest [float] below 2.5 (bits 0x401fffff). *)
Definition justBelowQuarter : F32.float := S754_finite false 10485759 (-22).

(** A [powf] whose square of that number is one unit in the last place
    above the correctly rounded one, and that is [samplePowf] elsewhere. *)
Definition lastPlacePowf (base exponent : F32.float) : F32.float :=
  if F32.eqb base justBelowQuarter
  then S754_finite false 13107199 (-21)
  else samplePowf base exponent.
(** * Properties *)

Ltac unfold_M :=
  unfold bind, ret, get, modify, call, when, throw, THROW_IF_FAILED in *.

(** ** The click counter *)

Lemma UInt64Sub_ok (a b : Z) :
  b <= a -> UInt64Sub a b = (S_OK, a - b).
Proof.
  intros H. unfold UInt64Sub.
  destruct (Z.leb_spec b a); [reflexivity | lia].
Qed.

Lemma UInt64Sub_overflow (a b : Z) :
  a < b -> UInt64Sub a b = (INTSAFE_E_ARITHMETIC_OVERFLOW, ULONGLONG_ERROR).
Proof.
  intros H. unfold UInt64Sub.
  destruct (Z.leb_spec b a); [lia | reflexivity].
Qed.

Lemma NumberOfClicks_returns (s : ControlInteractivity) (clickPos : Point)
    (clickTime : Z) :
  _lastMouseClickTimestamp s <= clickTime ->
  _NumberOfClicks clickPos clickTime s =
    (Returned (nextCount s clickPos clickTime), clicked s clickPos clickTime, []).
Proof.
  intros H. unfold _NumberOfClicks, clicked, nextCount. unfold_M.
  rewrite (UInt64Sub_ok _ _ H). cbn.
  destruct (optPoint_neqb (_lastMouseClickPos s) clickPos
            || (_multiClickTimer s <? clickTime - _lastMouseClickTimestamp s));
    reflexivity.
Qed.

Lemma NumberOfClicks_throws (s : ControlInteractivity) (clickPos : Point)
    (clickTime : Z) :
  clickTime < _lastMouseClickTimestamp s ->
  _NumberOfClicks clickPos clickTime s =
    (Thrown INTSAFE_E_ARITHMETIC_OVERFLOW, s, []).
Proof.
  intros H. unfold _NumberOfClicks. unfold_M.
  rewrite (UInt64Sub_overflow _ _ H). reflexivity.
Qed.

(** C9 (as amended).  A click whose timestamp is not earlier than the
    stored one is registered: the count returned is 1 when the position
    differs from the stored one (exact comparison of the coordinates, or
    no stored click) or the time since the stored click exceeds the
    multi-click timer, and the previous count plus one, modulo 2^32,
    otherwise; in both cases the count, the position and the timestamp are
    stored and no call is made. *)
Theorem NumberOfClicks_registers (s : ControlInteractivity) (clickPos : Point)
    (clickTime : Z) :
  _lastMouseClickTimestamp s <= clickTime ->
  exists (count : Z) (s' : ControlInteractivity),
    _NumberOfClicks clickPos clickTime s = (Returned count, s', [])
    /\ (optPoint_neqb (_lastMouseClickPos s) clickPos = true
        \/ _multiClickTimer s < clickTime - _lastMouseClickTimestamp s ->
        count = 1)
    /\ (optPoint_neqb (_lastMouseClickPos s) clickPos = false
        /\ clickTime - _lastMouseClickTimestamp s <= _multiClickTimer s ->
        count = (_multiClickCounter s + 1) mod UINT_MOD)
    /\ _multiClickCounter s' = count
    /\ _lastMouseClickPos s' = Some clickPos
    /\ _lastMouseClickTimestamp s' = clickTime.
Proof.
  intros H.
  exists (nextCount s clickPos clickTime), (clicked s clickPos clickTime).
  split; [apply NumberOfClicks_returns; assumption | ].
  split; [ | split; [ | cbn; repeat split; reflexivity]].
  - intros Hc. unfold nextCount. destruct Hc as [Hc | Hc].
    + rewrite Hc. reflexivity.
    + apply Z.ltb_lt in Hc. rewrite Hc, orb_true_r. reflexivity.
  - intros [Hp Hw]. unfold nextCount. apply Z.ltb_ge in Hw.
    rewrite Hp, Hw. reflexivity.
Qed.

Lemma NumberOfClicks_registers_witness :
  exists count s',
    _NumberOfClicks (pt 3 4) 1200
      (clicked (set_multiClickCounter 1 fresh) (pt 3 4) 1000)
      = (Returned count, s', [])
    /\ count = 2.
Proof.
  destruct (NumberOfClicks_registers
              (clicked (set_multiClickCounter 1 fresh) (pt 3 4) 1000)
              (pt 3 4) 1200) as (count & s' & Hrun & _ & Hinc & _).
  - cbn. lia.
  - exists count, s'. split; [exact Hrun | ].
    rewrite Hinc; [reflexivity | ]. split; [reflexivity | cbn; lia].
Defined.

(** C9 (as stated) fails: a click stamped earlier than the stored click
    returns no count and updates neither the position nor the timestamp. *)
Lemma NumberOfClicks_earlier_timestamp :
  let s := clicked fresh (pt 3 4) 1000 in
  ~ (exists count s',
        _NumberOfClicks (pt 3 4) 500 s = (Returned count, s', [])
        /\ _lastMouseClickTimestamp s' = 500).
Proof.
  intros s [count [s' [Hrun _]]]. vm_compute in Hrun. discriminate Hrun.
Qed.

(** Clicks at one place inside the timer count up by one each, as long as
    the counter does not wrap. *)
Lemma NumberOfClicks_counts_up (s : ControlInteractivity) (clickPos : Point)
    (clickTime : Z) :
  _lastMouseClickTimestamp s <= clickTime ->
  optPoint_neqb (_lastMouseClickPos s) clickPos = false ->
  clickTime - _lastMouseClickTimestamp s <= _multiClickTimer s ->
  0 <= _multiClickCounter s < UINT_MOD - 1 ->
  result_of (_NumberOfClicks clickPos clickTime s)
    = Returned (_multiClickCounter s + 1).
Proof.
  intros Ht Hpos Hwin Hc.
  rewrite (NumberOfClicks_returns _ _ _ Ht). unfold result_of, nextCount. cbn.
  rewrite Hpos. cbn.
  destruct (Z.ltb_spec (_multiClickTimer s)
              (clickTime - _lastMouseClickTimestamp s)); [lia | ].
  change UINT_MOD with 4294967296 in *.
  rewrite Z.mod_small; [reflexivity | lia].
Qed.

(** The counter is an [unsigned int]: from its largest value the next
    click of a burst gets count 0. *)
Example NumberOfClicks_wraps :
  result_of (_NumberOfClicks (pt 3 4) 1200
               (set_multiClickCounter (UINT_MOD - 2)
                  (clicked fresh (pt 3 4) 1000)))
  = Returned (UINT_MOD - 1)
  /\ result_of (_NumberOfClicks (pt 3 4) 1300
               (set_multiClickCounter (UINT_MOD - 1)
                  (clicked fresh (pt 3 4) 1000)))
  = Returned 0.
Proof. split; vm_compute; reflexivity. Qed.

(** The counts 1 to 6 fold into 1, 2, 3, 1, 2, 3. *)
Example multiClickMapper_cycles :
  map multiClickMapper [1; 2; 3; 4; 5; 6] = [1; 2; 3; 1; 2; 3].
Proof. reflexivity. Qed.

(** ** Stepping through the monad *)

Lemma bind_returned {A B} (m : M A) (f : A -> M B) s a s1 l1 :
  m s = (Returned a, s1, l1) ->
  bind m f s = (result_of (f a s1), state_of (f a s1), l1 ++ calls_of (f a s1)).
Proof.
  intros H. unfold bind, result_of, state_of, calls_of. rewrite H.
  destruct (f a s1) as [[r s2] l2]. reflexivity.
Qed.

Lemma bind_thrown {A B} (m : M A) (f : A -> M B) s hr s1 l1 :
  m s = (Thrown hr, s1, l1) -> bind m f s = (Thrown hr, s1, l1).
Proof. intros H. unfold bind. rewrite H. reflexivity. Qed.

Arguments F32.leb : simpl never.
Arguments F32.ltb : simpl never.
Arguments F32.eqb : simpl never.
Arguments F32.abs : simpl never.
Arguments F32.sub : simpl never.
Arguments F64.add : simpl never.
Arguments F64.of_Z : simpl never.
Arguments distance : simpl never.
Arguments quarterCell : simpl never.
Arguments halfRow : simpl never.
Arguments numRows : simpl never.
Arguments uiButton_of : simpl never.
Arguments saturated_cast_short : simpl never.
Arguments multiClickMapper : simpl never.
Arguments optPoint_eqb : simpl never.
Arguments optPoint_neqb : simpl never.
Arguments Z.eqb : simpl never.

(** Splits on every condition a handler tests. *)
Ltac split_ifs :=
  repeat match goal with
         | |- context [if ?b then _ else _] =>
             let E := fresh "E" in destruct b eqn:E; cbn in *
         | |- context [match ?o with Some _ => _ | None => _ end] =>
             let E := fresh "E" in destruct o eqn:E; cbn in *
         end.

(** ** Errors *)

(** C5 (as amended).  A handler throws exactly when a press that
    registers a click is stamped earlier than the stored click; it then
    throws the overflow status of the checked subtraction, has written
    nothing and has made no call.  Every other event returns. *)
Theorem handle_throws_only_on_earlier_click (e : PointerEvent)
    (s : ControlInteractivity) :
  if registersClick e
     && (Timestamp (ev_point e) <? _lastMouseClickTimestamp s)
  then handle e s = (Thrown INTSAFE_E_ARITHMETIC_OVERFLOW, s, [])
  else result_of (handle e s) = Returned tt.
Proof.
  destruct e as [k core point modifiers focused pos type].
  unfold handle, registersClick. cbn.
  destruct k.
  - (* pressed *)
    unfold PointerPressed.
    destruct (is_mouse_or_pen type) eqn:Ety; cbn.
    + destruct (IsLeftButtonPressed (Properties point)) eqn:El; cbn.
      * destruct (IsCtrlPressed modifiers
                  && negb (empty (GetHyperlink core pos))) eqn:Eh; cbn.
        -- destruct (Z.ltb_spec (Timestamp point) (_lastMouseClickTimestamp s))
             as [Hlt | Hge].
           ++ apply bind_thrown, NumberOfClicks_throws; assumption.
           ++ rewrite (bind_returned _ _ _ _ _ _
                         (NumberOfClicks_returns _ _ _ Hge)).
              unfold_M. split_ifs; reflexivity.
        -- destruct (_CanSendVTMouseInput core modifiers) eqn:Evt; cbn.
           ++ reflexivity.
           ++ destruct (Z.ltb_spec (Timestamp point)
                          (_lastMouseClickTimestamp s)) as [Hlt | Hge].
              ** apply bind_thrown, NumberOfClicks_throws; assumption.
              ** rewrite (bind_returned _ _ _ _ _ _
                            (NumberOfClicks_returns _ _ _ Hge)).
                 unfold_M. split_ifs; reflexivity.
      * unfold _TrySendMouseEvent, PasteTextFromClipboard,
          CopySelectionToClipboard. unfold_M.
        split_ifs; reflexivity.
    + unfold_M. split_ifs; reflexivity.
  - (* moved *)
    unfold PointerMoved, _TrySendMouseEvent, _SetEndSelectionPoint. unfold_M.
    cbn. split_ifs; reflexivity.
  - (* released *)
    unfold PointerReleased, _TrySendMouseEvent, CopySelectionToClipboard.
    unfold_M. cbn. split_ifs; reflexivity.
Qed.

(** C5 (as stated) fails: a left press stamped earlier than the stored
    click throws. *)
Lemma PointerPressed_earlier_timestamp_throws :
  result_of
    (PointerPressed plainCore
       (pointAt 3 4 500 (props true false LeftButtonPressed noRect))
       noModifiers true (cell 0 0) Mouse
       (clicked fresh (pt 3 4) 1000))
  = Thrown INTSAFE_E_ARITHMETIC_OVERFLOW.
Proof. vm_compute. reflexivity. Qed.

(** ** Presses *)

(** C7.  A left press with Ctrl held, on a mouse or a pen, over a cell
    with a non-empty hyperlink raises the hyperlink event once, with that
    URI, when the click count that [_NumberOfClicks] returns for it is 1,
    and raises nothing when the count is anything else (or when no count
    is returned); it makes no other call.  A count is returned whenever
    the timestamp is not earlier than that of the stored click, and the
    handler then returns with the click registered. *)
Theorem PointerPressed_hyperlink_on_first_click (core : Core)
    (point : PointerPoint) (modifiers : ControlKeyStates) (focused : bool)
    (terminalPosition : til_point) (type : PointerDeviceType)
    (s : ControlInteractivity) :
  is_mouse_or_pen type = true ->
  IsLeftButtonPressed (Properties point) = true ->
  IsCtrlPressed modifiers = true ->
  empty (GetHyperlink core terminalPosition) = false ->
  let r := PointerPressed core point modifiers focused terminalPosition type s in
  let clicks := _NumberOfClicks (Position point) (Timestamp point) s in
  calls_of r
  = match result_of clicks with
    | Returned clickCount =>
        if clickCount =? 1
        then [OpenHyperlink (GetHyperlink core terminalPosition)]
        else []
    | Thrown _ => []
    end
  /\ (_lastMouseClickTimestamp s <= Timestamp point ->
      exists clickCount,
        result_of clicks = Returned clickCount
        /\ result_of r = Returned tt
        /\ state_of r = state_of clicks
        /\ count_calls isOpenHyperlink (calls_of r)
           = (if clickCount =? 1 then 1%nat else 0%nat)).
Proof.
  intros Hty Hl Hc Hh r clicks. subst r clicks.
  unfold PointerPressed. rewrite Hty, Hl, Hc, Hh. cbn [andb negb].
  destruct (Z.ltb_spec (Timestamp point) (_lastMouseClickTimestamp s))
    as [Hlt | Hge].
  - rewrite (bind_thrown _ _ _ _ _ _ (NumberOfClicks_throws _ _ _ Hlt)).
    rewrite (NumberOfClicks_throws _ _ _ Hlt).
    split; [reflexivity | intros Hle; lia].
  - rewrite (bind_returned _ _ _ _ _ _ (NumberOfClicks_returns _ _ _ Hge)).
    rewrite (NumberOfClicks_returns _ _ _ Hge).
    unfold _HyperlinkHandler, result_of, state_of, calls_of, count_calls.
    unfold_M. cbn.
    split.
    + destruct (nextCount s (Position point) (Timestamp point) =? 1);
        reflexivity.
    + intros _. exists (nextCount s (Position point) (Timestamp point)).
      destruct (nextCount s (Position point) (Timestamp point) =? 1);
        repeat split; reflexivity.
Qed.

Lemma PointerPressed_hyperlink_on_first_click_witness :
  calls_of
    (PointerPressed (withHyperlink "https://example.com" plainCore)
       (pointAt 3 4 1000 (props true false LeftButtonPressed noRect))
       ctrlHeld true (cell 1 2) Mouse fresh)
  = [OpenHyperlink "https://example.com"].
Proof.
  exact (proj1 (PointerPressed_hyperlink_on_first_click
                  (withHyperlink "https://example.com" plainCore)
                  (pointAt 3 4 1000 (props true false LeftButtonPressed noRect))
                  ctrlHeld true (cell 1 2) Mouse fresh
                  eq_refl eq_refl eq_refl eq_refl)).
Defined.

(** A Ctrl+click on a link and a second one 0.2 s later at the same
    place: the first opens the link, the second (count 2) does not. *)
Example ctrl_double_click_opens_once :
  let core := withHyperlink "https://example.com" plainCore in
  let press t :=
    PointerPressed core
      (pointAt 3 4 t (props true false LeftButtonPressed noRect))
      ctrlHeld true (cell 1 2) Mouse in
  let first := press 1000 fresh in
  let second := press 200000 (state_of first) in
  calls_of first = [OpenHyperlink "https://example.com"]
  /\ _multiClickCounter (state_of second) = 2
  /\ calls_of second = [].
Proof. vm_compute. repeat split; reflexivity. Qed.

(** C1 (as amended).  A press on a mouse or a pen with mouse mode on and
    Shift up, unless it is a left press with Ctrl held over a non-empty
    hyperlink, is handed to [SendMouseEvent] and nothing else happens: the
    members are unchanged, the terminal is not clicked, no hyperlink is
    opened. *)
Theorem PointerPressed_forwards_unless_hyperlink (core : Core)
    (point : PointerPoint) (modifiers : ControlKeyStates) (focused : bool)
    (terminalPosition : til_point) (type : PointerDeviceType)
    (s : ControlInteractivity) :
  is_mouse_or_pen type = true ->
  IsVtMouseModeEnabled core = true ->
  IsShiftPressed modifiers = false ->
  IsLeftButtonPressed (Properties point) && IsCtrlPressed modifiers
    && negb (empty (GetHyperlink core terminalPosition)) = false ->
  PointerPressed core point modifiers focused terminalPosition type s
  = (Returned tt, s, [mouseEventOf point modifiers terminalPosition]).
Proof.
  intros Hty Hvt Hsh Hhl.
  unfold PointerPressed. rewrite Hty, Hhl.
  unfold _CanSendVTMouseInput. rewrite Hsh, Hvt. reflexivity.
Qed.

Lemma PointerPressed_forwards_unless_hyperlink_witness :
  PointerPressed (withVtMouseMode plainCore)
    (pointAt 3 4 1000 (props true false LeftButtonPressed noRect))
    noModifiers true (cell 1 2) Mouse fresh
  = (Returned tt, fresh,
     [SendMouseEvent (cell 1 2) WM_LBUTTONDOWN noModifiers 0
        {| isLeftButtonDown := true; isMiddleButtonDown := false;
           isRightButtonDown := false |}]).
Proof.
  apply (PointerPressed_forwards_unless_hyperlink (withVtMouseMode plainCore)
           (pointAt 3 4 1000 (props true false LeftButtonPressed noRect))
           noModifiers true (cell 1 2) Mouse fresh); reflexivity.
Defined.

(** C1 (as stated) fails: with mouse mode on and Shift up, a Ctrl+left
    press on a mouse over a hyperlink is not forwarded; the hyperlink is
    opened instead. *)
Lemma PointerPressed_hyperlink_before_mouse_mode :
  let r :=
    PointerPressed (withHyperlink "https://example.com"
                      (withVtMouseMode plainCore))
      (pointAt 3 4 1000 (props true false LeftButtonPressed noRect))
      ctrlHeld true (cell 1 2) Mouse fresh in
  forwarded (calls_of r) = false
  /\ calls_of r = [OpenHyperlink "https://example.com"].
Proof. vm_compute. split; reflexivity. Qed.

(** C10.  A right press on a mouse or a pen that is not forwarded, with a
    selection and copy-on-select off: whatever copy the press makes has
    the Shift state as its single-line argument; and when the left button
    is not held too, the press makes exactly that copy (all formats left
    to the settings), clears the copy flag and does nothing else. *)
Theorem PointerPressed_right_click_copies (core : Core)
    (point : PointerPoint) (modifiers : ControlKeyStates) (focused : bool)
    (terminalPosition : til_point) (type : PointerDeviceType)
    (s : ControlInteractivity) :
  is_mouse_or_pen type = true ->
  _CanSendVTMouseInput core modifiers = false ->
  IsRightButtonPressed (Properties point) = true ->
  HasSelection core = true ->
  CopyOnSelect core = false ->
  let r := PointerPressed core point modifiers focused terminalPosition type s in
  (forall singleLine formats,
      In (CoreCopySelectionToClipboard singleLine formats) (calls_of r) ->
      singleLine = IsShiftPressed modifiers)
  /\ (IsLeftButtonPressed (Properties point) = false ->
      r = (Returned tt, set_selectionNeedsToBeCopied false s,
           [CoreCopySelectionToClipboard (IsShiftPressed modifiers) None])).
Proof.
  intros Hty Hvt Hr Hsel Hcos r.
  assert (Hright : IsLeftButtonPressed (Properties point) = false ->
            r = (Returned tt, set_selectionNeedsToBeCopied false s,
                 [CoreCopySelectionToClipboard (IsShiftPressed modifiers) None])).
  { intros Hl. subst r. unfold PointerPressed.
    rewrite Hty, Hl, Hvt, Hr, Hsel, Hcos. reflexivity. }
  split; [ | exact Hright].
  intros singleLine formats Hin.
  destruct (IsLeftButtonPressed (Properties point)) eqn:Hl.
  - (* the left button is held as well: the press is a left click *)
    exfalso. subst r. unfold PointerPressed in Hin.
    rewrite Hty, Hl, Hvt in Hin. cbn in Hin.
    destruct (IsCtrlPressed modifiers
              && negb (empty (GetHyperlink core terminalPosition))) eqn:Eh;
      cbn in Hin;
      destruct (Z.ltb_spec (Timestamp point) (_lastMouseClickTimestamp s))
        as [Hlt | Hge].
    all: try (rewrite (bind_thrown _ _ _ _ _ _
                         (NumberOfClicks_throws _ _ _ Hlt)) in Hin;
              exact Hin).
    all: rewrite (bind_returned _ _ _ _ _ _
                    (NumberOfClicks_returns _ _ _ Hge)) in Hin;
      unfold _HyperlinkHandler in Hin; unfold_M; cbn in Hin.
    + destruct (nextCount s (Position point) (Timestamp point) =? 1);
        cbn in Hin; [destruct Hin as [Hin | []]; discriminate Hin | exact Hin].
    + rewrite Hsel in Hin. rewrite andb_false_r in Hin. cbn in Hin.
      destruct Hin as [Hin | []]; discriminate Hin.
  - rewrite (Hright eq_refl) in Hin. cbn in Hin.
    destruct Hin as [Hin | []]. injection Hin as Hs _. symmetry. exact Hs.
Qed.

Lemma PointerPressed_right_click_copies_witness :
  PointerPressed (withSelection false plainCore)
    (pointAt 3 4 1000 (props false true RightButtonPressed noRect))
    shiftHeld true (cell 1 2) Mouse fresh
  = (Returned tt, fresh, [CoreCopySelectionToClipboard true None]).
Proof.
  apply (PointerPressed_right_click_copies (withSelection false plainCore)
           (pointAt 3 4 1000 (props false true RightButtonPressed noRect))
           shiftHeld true (cell 1 2) Mouse fresh); reflexivity.
Defined.

(** ** Releases *)

(** C3 (as amended).  A release on a mouse or a pen outside read-only
    mode, with mouse mode on and Shift up, is handed to [SendMouseEvent]
    and the handler returns there: nothing is copied and the members,
    the touchdown among them, are as they were.  Every other release
    empties the touchdown, and copies, once, not collapsed to a line and
    clearing the copy flag, exactly when the device is a mouse or a pen,
    copy-on-select is on, the left button was released and the copy flag
    is set. *)
Theorem PointerReleased_copies_and_clears (core : Core)
    (point : PointerPoint) (modifiers : ControlKeyStates) (focused : bool)
    (terminalPosition : til_point) (type : PointerDeviceType)
    (s : ControlInteractivity) :
  let r := PointerReleased core point modifiers focused terminalPosition type s in
  let copies :=
    is_mouse_or_pen type && CopyOnSelect core
    && PointerUpdateKind_eqb (UpdateKind (Properties point)) LeftButtonReleased
    && _selectionNeedsToBeCopied s in
  if is_mouse_or_pen type && negb (IsInReadOnlyMode core)
     && _CanSendVTMouseInput core modifiers
  then r = (Returned tt, s, [mouseEventOf point modifiers terminalPosition])
  else result_of r = Returned tt
       /\ calls_of r
          = (if copies then [CoreCopySelectionToClipboard false None] else [])
       /\ count_calls isCopy (calls_of r) = (if copies then 1%nat else 0%nat)
       /\ _selectionNeedsToBeCopied (state_of r)
          = (if copies then false else _selectionNeedsToBeCopied s)
       /\ _singleClickTouchdownPos (state_of r) = None
       /\ _singleClickTouchdownTerminalPos (state_of r) = None.
Proof.
  unfold PointerReleased, _TrySendMouseEvent, CopySelectionToClipboard,
    mouseEventOf, result_of, state_of, calls_of, count_calls.
  unfold_M.
  destruct (is_mouse_or_pen type) eqn:Ety; cbn.
  - destruct (negb (IsInReadOnlyMode core)
              && _CanSendVTMouseInput core modifiers); cbn.
    + reflexivity.
    + destruct (CopyOnSelect core); cbn;
        [destruct (PointerUpdateKind_eqb (UpdateKind (Properties point))
                     LeftButtonReleased); cbn;
         [destruct (_selectionNeedsToBeCopied s) eqn:Ef; cbn | ] | ];
        repeat split; try reflexivity; try assumption.
  - destruct (is_touch type); cbn; repeat split; reflexivity.
Qed.

(** C3 (as stated) fails: Shift+left press in mouse mode starts a
    touchdown; the release, with Shift up by then, is forwarded and the
    touchdown stays. *)
Lemma PointerReleased_forwarded_keeps_touchdown :
  let core := withVtMouseMode plainCore in
  let s1 :=
    state_of (PointerPressed core
                (pointAt 3 4 1000 (props true false LeftButtonPressed noRect))
                shiftHeld true (cell 1 2) Mouse fresh) in
  let r :=
    PointerReleased core
      (pointAt 3 4 2000 (props false false LeftButtonReleased noRect))
      noModifiers true (cell 1 2) Mouse s1 in
  _singleClickTouchdownPos s1 = Some (pt 3 4)
  /\ forwarded (calls_of r) = true
  /\ _singleClickTouchdownPos (state_of r) = Some (pt 3 4).
Proof. vm_compute. repeat split; reflexivity. Qed.

(** ** Moves *)

(** C2 (as amended).  A move on a mouse or a pen, the control focused,
    the left button held and the move not forwarded, sets the end of the
    selection at the current cell and sets the copy flag.  Before that,
    when a touchdown is tracked and the distance of the cursor from it,
    sqrtf (powf (dx, 2) + powf (dy, 2)) with [powf] as the C runtime
    computes it, is at least a quarter of the smaller axis of the font
    cell, the selection anchor is set and the touchdown is emptied;
    otherwise the touchdown is left as it is.  The hovered cell is updated
    last. *)
Theorem PointerMoved_drag_extends_selection (core : Core)
    (point : PointerPoint) (modifiers : ControlKeyStates)
    (terminalPosition : til_point) (type : PointerDeviceType)
    (s : ControlInteractivity) :
  is_mouse_or_pen type = true ->
  IsLeftButtonPressed (Properties point) = true ->
  negb (IsInReadOnlyMode core) && _CanSendVTMouseInput core modifiers = false ->
  let r := PointerMoved core point modifiers true terminalPosition type s in
  let starts :=
    match _singleClickTouchdownPos s with
    | Some touchdownPoint =>
        let dx := F32.sub (X (Position point)) (X touchdownPoint) in
        let dy := F32.sub (Y (Position point)) (Y touchdownPoint) in
        F32.leb
          (F32.div (F32.of_Z (Z.min (width (fontSizeInDips core))
                                    (height (fontSizeInDips core))))
                   (F32.of_Z 4))
          (F32.sqrt (F32.add (powf core dx (F32.of_Z 2))
                             (powf core dy (F32.of_Z 2))))
    | None => false
    end in
  result_of r = Returned tt
  /\ (exists anchorCalls,
         calls_of r = anchorCalls ++ [SetEndSelectionPoint terminalPosition;
                                      UpdateHoveredCell terminalPosition]
         /\ if starts
            then exists c, anchorCalls = [SetSelectionAnchor c]
            else anchorCalls = [])
  /\ _selectionNeedsToBeCopied (state_of r) = true
  /\ _singleClickTouchdownPos (state_of r)
     = (if starts then None else _singleClickTouchdownPos s)
  /\ _singleClickTouchdownTerminalPos (state_of r)
     = (if starts then None else _singleClickTouchdownTerminalPos s).
Proof.
  intros Hty Hl Hvt r starts.
  (* the threshold test of the statement is the one the handler makes *)
  assert (Hstarts : starts = dragStarts core point s) by reflexivity.
  clearbody starts. subst r. rewrite Hstarts. clear Hstarts starts.
  unfold PointerMoved, _SetEndSelectionPoint, dragStarts,
    result_of, state_of, calls_of.
  rewrite Hty, Hl. cbn. rewrite Hvt. unfold_M.
  destruct (_singleClickTouchdownPos s) as [touchdownPoint | ] eqn:Etd; cbn.
  - destruct (F32.leb (quarterCell (fontSizeInDips core))
                (distance core (Position point) touchdownPoint)); cbn.
    + repeat split; try reflexivity.
      exists [SetSelectionAnchor terminalPosition]. split; [reflexivity | ].
      exists terminalPosition. reflexivity.
    + repeat split; try reflexivity; try assumption.
      exists []. split; reflexivity.
  - repeat split; try reflexivity; try assumption.
    exists []. split; reflexivity.
Qed.

Lemma PointerMoved_drag_extends_selection_witness :
  let s1 :=
    state_of (PointerPressed plainCore
                (pointAt 3 4 1000 (props true false LeftButtonPressed noRect))
                noModifiers true (cell 1 2) Mouse fresh) in
  let r :=
    PointerMoved plainCore
      (pointAt 30 4 2000 (props true false Other noRect))
      noModifiers true (cell 4 2) Mouse s1 in
  _selectionNeedsToBeCopied (state_of r) = true
  /\ _singleClickTouchdownPos (state_of r) = None.
Proof.
  destruct (PointerMoved_drag_extends_selection plainCore
              (pointAt 30 4 2000 (props true false Other noRect))
              noModifiers (cell 4 2) Mouse
              (state_of (PointerPressed plainCore
                 (pointAt 3 4 1000 (props true false LeftButtonPressed noRect))
                 noModifiers true (cell 1 2) Mouse fresh)))
    as (_ & _ & Hflag & Htd & _); try reflexivity.
  split; [exact Hflag | exact Htd].
Defined.

(** C2 (as stated) fails: a move with the left button held and no
    forwarding, on a control that is not focused, does not extend the
    selection and leaves the copy flag down. *)
Lemma PointerMoved_unfocused_does_not_extend :
  let r :=
    PointerMoved plainCore
      (pointAt 30 4 2000 (props true false Other noRect))
      noModifiers false (cell 4 2) Mouse fresh in
  existsb isSetEndSelectionPoint (calls_of r) = false
  /\ _selectionNeedsToBeCopied (state_of r) = false.
Proof. vm_compute. split; reflexivity. Qed.

(** The anchor that a drag sets is the cell of the move, though the cell
    of the touchdown is what the press stored: touchdown in cell (1,2),
    first move in cell (4,2). *)
Example PointerMoved_anchor_is_cell_of_move :
  let s1 :=
    state_of (PointerPressed plainCore
                (pointAt 3 4 1000 (props true false LeftButtonPressed noRect))
                noModifiers true (cell 1 2) Mouse fresh) in
  let r :=
    PointerMoved plainCore
      (pointAt 30 4 2000 (props true false Other noRect))
      noModifiers true (cell 4 2) Mouse s1 in
  _singleClickTouchdownTerminalPos s1 = Some (cell 1 2)
  /\ calls_of r = [SetSelectionAnchor (cell 4 2);
                   SetEndSelectionPoint (cell 4 2);
                   UpdateHoveredCell (cell 4 2)].
Proof. vm_compute. split; reflexivity. Qed.

(** Why [powf] is taken from the runtime: the touchdown at (0,0), the
    cursor at the largest float below 2.5 on the same row, the quarter of
    the 10 by 20 cell being 2.5.  With the correctly rounded square the
    distance stays below the quarter and the drag does not start; with a
    square one unit in the last place higher it reaches it, and the anchor
    is set. *)
Example drag_threshold_follows_powf :
  let s1 := set_singleClickTouchdownPos (Some (pt 0 0)) fresh in
  let move core :=
    PointerMoved core
      {| Position := {| X := justBelowQuarter; Y := F32.of_Z 0 |};
         Timestamp := 2000; Properties := props true false Other noRect |}
      noModifiers true (cell 0 0) Mouse s1 in
  calls_of (move plainCore)
  = [SetEndSelectionPoint (cell 0 0); UpdateHoveredCell (cell 0 0)]
  /\ calls_of (move (withPowf lastPlacePowf plainCore))
     = [SetSelectionAnchor (cell 0 0); SetEndSelectionPoint (cell 0 0);
        UpdateHoveredCell (cell 0 0)].
Proof. vm_compute. split; reflexivity. Qed.

(** ** Forwarding *)

Lemma CanSendVTMouseInput_iff (core : Core) (modifiers : ControlKeyStates) :
  _CanSendVTMouseInput core modifiers = true
  <-> IsShiftPressed modifiers = false /\ IsVtMouseModeEnabled core = true.
Proof.
  unfold _CanSendVTMouseInput.
  destruct (IsShiftPressed modifiers), (IsVtMouseModeEnabled core);
    split; intros H; try discriminate H; try (split; reflexivity);
    try reflexivity; destruct H as [Hs Hv]; discriminate Hs || discriminate Hv.
Qed.

(** C6 (as amended).  [_CanSendVTMouseInput] holds exactly when Shift is
    up and the core reports mouse mode.  An event is handed to
    [SendMouseEvent] exactly when it comes from a mouse or a pen,
    [_CanSendVTMouseInput] holds and, besides: for a press, it is not a
    left press with Ctrl held over a non-empty hyperlink; for a move, the
    control is focused and not read-only; for a release, the control is
    not read-only. *)
Theorem forwarded_iff (e : PointerEvent) (s : ControlInteractivity) :
  _CanSendVTMouseInput (ev_core e) (ev_modifiers e)
  = negb (IsShiftPressed (ev_modifiers e)) && IsVtMouseModeEnabled (ev_core e)
  /\ forwarded (calls_of (handle e s))
     = is_mouse_or_pen (ev_type e)
       && _CanSendVTMouseInput (ev_core e) (ev_modifiers e)
       && match ev_kind e with
          | Pressed =>
              negb (IsLeftButtonPressed (Properties (ev_point e))
                    && IsCtrlPressed (ev_modifiers e)
                    && negb (empty (GetHyperlink (ev_core e)
                                      (ev_terminalPosition e))))
          | Moved => ev_focused e && negb (IsInReadOnlyMode (ev_core e))
          | Released => negb (IsInReadOnlyMode (ev_core e))
          end.
Proof.
  split.
  { unfold _CanSendVTMouseInput.
    destruct (IsShiftPressed (ev_modifiers e)); reflexivity. }
  destruct e as [k core point modifiers focused pos type].
  unfold handle, calls_of, forwarded. cbn.
  destruct k.
  - (* pressed *)
    unfold PointerPressed.
    destruct (is_mouse_or_pen type) eqn:Ety; cbn.
    + destruct (IsLeftButtonPressed (Properties point) && IsCtrlPressed modifiers
                && negb (empty (GetHyperlink core pos))) eqn:Eh; cbn.
      * rewrite andb_false_r.
        destruct (Z.ltb_spec (Timestamp point) (_lastMouseClickTimestamp s))
          as [Hlt | Hge].
        -- rewrite (bind_thrown _ _ _ _ _ _ (NumberOfClicks_throws _ _ _ Hlt)).
           reflexivity.
        -- rewrite (bind_returned _ _ _ _ _ _
                      (NumberOfClicks_returns _ _ _ Hge)).
           unfold _HyperlinkHandler. unfold_M. split_ifs; reflexivity.
      * rewrite andb_true_r.
        destruct (_CanSendVTMouseInput core modifiers) eqn:Evt; cbn.
        -- reflexivity.
        -- destruct (IsLeftButtonPressed (Properties point)) eqn:El; cbn.
           ++ destruct (Z.ltb_spec (Timestamp point)
                          (_lastMouseClickTimestamp s)) as [Hlt | Hge].
              ** rewrite (bind_thrown _ _ _ _ _ _
                            (NumberOfClicks_throws _ _ _ Hlt)).
                 reflexivity.
              ** rewrite (bind_returned _ _ _ _ _ _
                            (NumberOfClicks_returns _ _ _ Hge)).
                 unfold_M. split_ifs; reflexivity.
           ++ unfold PasteTextFromClipboard, CopySelectionToClipboard.
              unfold_M. split_ifs; reflexivity.
    + unfold_M. split_ifs; reflexivity.
  - (* moved *)
    unfold PointerMoved, _TrySendMouseEvent, _SetEndSelectionPoint. unfold_M.
    destruct (is_mouse_or_pen type), focused, (IsInReadOnlyMode core),
      (_CanSendVTMouseInput core modifiers); cbn; split_ifs; reflexivity.
  - (* released *)
    unfold PointerReleased, _TrySendMouseEvent, CopySelectionToClipboard.
    unfold_M.
    destruct (is_mouse_or_pen type), (IsInReadOnlyMode core),
      (_CanSendVTMouseInput core modifiers); cbn; split_ifs; reflexivity.
Qed.

(** C6 (as stated) fails: with Shift up and mouse mode on, a move on a
    focused control in read-only mode is not forwarded, and neither is
    one on a control that is not focused. *)
Lemma PointerMoved_read_only_not_forwarded :
  let move core focused :=
    PointerMoved core (pointAt 30 4 2000 (props false false Other noRect))
      noModifiers focused (cell 4 2) Mouse fresh in
  _CanSendVTMouseInput (withVtMouseMode plainCore) noModifiers = true
  /\ forwarded (calls_of (move (withVtMouseMode plainCore) true)) = true
  /\ forwarded
       (calls_of (move (withReadOnly (withVtMouseMode plainCore)) true))
     = false
  /\ forwarded (calls_of (move (withVtMouseMode plainCore) false)) = false.
Proof. vm_compute. repeat split; reflexivity. Qed.

(** ** Signs of rounded results *)

(** Rounding a non-negative mantissa gives a number of the sign asked
    for, never a NaN. *)
Section Rounding.
Variables prec emax : Z.

Lemma shr_1_nonneg mrs : 0 <= shr_m mrs -> 0 <= shr_m (shr_1 mrs).
Proof.
  destruct mrs as [m r t]. cbn. intros Hm.
  destruct m as [ | [p | p | ] | p]; cbn; lia.
Qed.

Lemma iter_shr_1_nonneg p : forall mrs,
  0 <= shr_m mrs -> 0 <= shr_m (iter_pos shr_1 p mrs).
Proof.
  induction p as [p IH | p IH | ]; intros mrs Hm; cbn.
  - apply IH, IH, shr_1_nonneg, Hm.
  - apply IH, IH, Hm.
  - apply shr_1_nonneg, Hm.
Qed.

Lemma shr_nonneg mrs e n : 0 <= shr_m mrs -> 0 <= shr_m (fst (shr mrs e n)).
Proof.
  intros Hm. destruct n; cbn; try exact Hm. apply iter_shr_1_nonneg, Hm.
Qed.

Lemma shr_fexp_nonneg m e l :
  0 <= m -> 0 <= shr_m (fst (shr_fexp prec emax m e l)).
Proof.
  intros Hm. unfold shr_fexp. apply shr_nonneg.
  destruct l as [ | [ | | ]]; exact Hm.
Qed.

Lemma round_nearest_even_nonneg m l : 0 <= m -> 0 <= round_nearest_even m l.
Proof.
  intros Hm. destruct l as [ | [ | | ]]; cbn; try lia.
  destruct (Z.even m); lia.
Qed.

Lemma binary_round_aux_sign sx mx ex lx :
  0 <= mx ->
  let r := binary_round_aux prec emax sx mx ex lx in
  signbit r = sx /\ isnan r = false.
Proof.
  intros Hm. unfold binary_round_aux.
  pose proof (shr_fexp_nonneg mx ex lx Hm) as H1.
  destruct (shr_fexp prec emax mx ex lx) as [mrs' e'].
  cbn [fst] in H1.
  pose proof (shr_fexp_nonneg _ e' loc_Exact
                (round_nearest_even_nonneg _ (loc_of_shr_record mrs') H1)) as H2.
  destruct (shr_fexp prec emax _ e' loc_Exact) as [mrs'' e''].
  cbn [fst] in H2.
  destruct (shr_m mrs'') as [ | m | m]; cbn.
  - split; reflexivity.
  - destruct (e'' <=? emax - prec); split; reflexivity.
  - lia.
Qed.
End Rounding.

Lemma div_sign sx mx ex my ey :
  let r := F32.div (S754_finite sx mx ex) (S754_finite false my ey) in
  signbit r = sx /\ isnan r = false.
Proof.
  unfold F32.div, SFdiv.
  destruct (SFdiv_core_binary F32.prec F32.emax (Z.pos mx) ex (Z.pos my) ey)
    as [[mz ez] lz] eqn:E.
  rewrite xorb_false_r. apply binary_round_aux_sign.
  unfold SFdiv_core_binary in E.
  match type of E with
  | (let '(q, r) := Z.div_eucl ?a ?b in _) = _ =>
      assert (Ha : 0 <= a); [ | pose proof (Z.div_pos a b Ha ltac:(lia)) as Hq;
        unfold Z.div in Hq; destruct (Z.div_eucl a b) as [q r] ]
  end.
  - destruct (ex - ey - _) eqn:Es; try lia. apply Z.shiftl_nonneg. lia.
  - injection E as <- _ _. exact Hq.
Qed.

Lemma of_Z_pos_sign (z : Z) :
  0 < z -> signbit (F32.of_Z z) = false /\ isnan (F32.of_Z z) = false.
Proof.
  intros Hz. destruct z as [ | p | p]; try lia.
  unfold F32.of_Z, binary_normalize, binary_round.
  destruct (shl_align p 0 _) as [mz ez].
  apply binary_round_aux_sign. lia.
Qed.

(** Dragging down by a finite amount over a cell of positive height gives
    a row count with the sign bit set. *)
Lemma numRows_downward_drag (fontSize : til_size) (m : positive) (e : Z) :
  0 < height fontSize ->
  let rows := numRows (S754_finite false m e) fontSize in
  signbit rows = true /\ isnan rows = false.
Proof.
  intros Hh. unfold numRows.
  destruct (of_Z_pos_sign _ Hh) as [Hs Hn].
  change (F32.of_Z (-1)) with (S754_finite true 8388608 (-23)).
  destruct (F32.of_Z (height fontSize)) as [s | s | | s mh eh] eqn:Eh;
    cbn in Hs, Hn; try discriminate Hn; subst s.
  - split; reflexivity.
  - split; reflexivity.
  - destruct (div_sign false m e mh eh) as [Hds Hdn].
    destruct (F32.div (S754_finite false m e) (S754_finite false mh eh))
      as [s | s | | s md ed]; cbn in Hds, Hdn; try discriminate Hdn; subst s.
    + split; reflexivity.
    + split; reflexivity.
    + unfold F32.mul, SFmul. apply binary_round_aux_sign. lia.
Qed.

(** ** Touch panning *)

(** C8 (as amended).  A touch move on a focused control, an anchor being
    set: with [dy] the vertical distance of the contact from the anchor,
    when |dy| is more than half the height of the font cell, the viewport
    is asked once to scroll to the scroll offset plus -1 * (dy / height)
    and the anchor becomes the contact point; otherwise nothing is asked
    and nothing changes.  A touch move on a control that is not focused
    does nothing.  A touch release empties the anchor.  The row count
    -1 * (dy / height) has its sign bit set when the contact is a finite
    amount below the anchor and the cell height is positive. *)
Theorem PointerMoved_touch_pans (core : Core) (point released : PointerPoint)
    (modifiers : ControlKeyStates) (focused : bool)
    (terminalPosition : til_point) (s : ControlInteractivity)
    (anchor : Point) :
  _touchAnchor s = Some anchor ->
  let newTouchPoint :=
    {| X := rX (ContactRect (Properties point));
       Y := rY (ContactRect (Properties point)) |} in
  let dy := F32.sub (Y newTouchPoint) (Y anchor) in
  let cellHeight := F32.of_Z (height (fontSizeInDips core)) in
  let newValue :=
    F64.add (F64.of_float (F32.mul (F32.of_Z (-1)) (F32.div dy cellHeight)))
            (F64.of_Z (ScrollOffset core)) in
  PointerMoved core point modifiers true terminalPosition Touch s
  = (if F32.ltb (F32.div cellHeight (F32.of_Z 2)) (F32.abs dy)
     then (Returned tt, set_touchAnchor (Some newTouchPoint) s,
           [UserScrollViewport newValue])
     else (Returned tt, s, []))
  /\ PointerMoved core point modifiers false terminalPosition Touch s
     = (Returned tt, s, [])
  /\ _touchAnchor
       (state_of (PointerReleased core released modifiers focused
                    terminalPosition Touch s))
     = None
  /\ (forall m e,
        dy = S754_finite false m e -> 0 < height (fontSizeInDips core) ->
        signbit (F32.mul (F32.of_Z (-1)) (F32.div dy cellHeight)) = true).
Proof.
  intros Ha newTouchPoint dy cellHeight newValue.
  subst newTouchPoint dy cellHeight newValue.
  split; [ | split; [ | split]].
  - unfold PointerMoved, halfRow, numRows, contactPoint. unfold_M. cbn.
    rewrite Ha.
    destruct (F32.ltb _ _); reflexivity.
  - reflexivity.
  - reflexivity.
  - intros m e Hdy Hh. rewrite Hdy.
    apply (numRows_downward_drag (fontSizeInDips core) m e Hh).
Qed.

Lemma PointerMoved_touch_pans_witness :
  let s1 := set_touchAnchor (Some (pt 100 100)) fresh in
  PointerMoved plainCore
    (pointAt 0 0 2000 (props false false Other (rectAt 100 112)))
    noModifiers true (cell 0 0) Touch s1
  = (Returned tt, set_touchAnchor (Some (pt 100 112)) s1,
     [UserScrollViewport (S754_finite false 7205759376949248 (-50))]).
Proof.
  exact (proj1 (PointerMoved_touch_pans plainCore
                  (pointAt 0 0 2000 (props false false Other (rectAt 100 112)))
                  (pointAt 0 0 3000 (props false false Other (rectAt 100 112)))
                  noModifiers true (cell 0 0)
                  (set_touchAnchor (Some (pt 100 100)) fresh)
                  (pt 100 100) eq_refl)).
Defined.

(** C8 (as stated) fails: a touch move 12 units below the anchor, the
    font cell being 20 high, on a control that is not focused asks for no
    scroll and leaves the anchor. *)
Lemma PointerMoved_touch_unfocused_does_not_pan :
  let s1 := set_touchAnchor (Some (pt 100 100)) fresh in
  let r :=
    PointerMoved plainCore
      (pointAt 0 0 2000 (props false false Other (rectAt 100 112)))
      noModifiers false (cell 0 0) Touch s1 in
  F32.ltb (halfRow (fontSizeInDips plainCore))
    (F32.abs (F32.sub (F32.of_Z 112) (F32.of_Z 100))) = true
  /\ calls_of r = []
  /\ _touchAnchor (state_of r) = Some (pt 100 100).
Proof. vm_compute. repeat split; reflexivity. Qed.

(** The touch drag of the specification: anchor at (100,100), cell height
    20; a move to (100,112), 0.6 of a cell lower, asks for offset
    7 - 0.6 = 6.4 (as a float widened to double), which is below the
    current offset 7; a further move of 2 asks for nothing. *)
Example touch_drag_scrolls_up :
  let s1 := set_touchAnchor (Some (pt 100 100)) fresh in
  let r :=
    PointerMoved plainCore
      (pointAt 0 0 2000 (props false false Other (rectAt 100 112)))
      noModifiers true (cell 0 0) Touch s1 in
  calls_of r = [UserScrollViewport (S754_finite false 7205759376949248 (-50))]
  /\ SFltb (S754_finite false 7205759376949248 (-50)) (F64.of_Z 7) = true
  /\ SFltb (F64.of_Z 6) (S754_finite false 7205759376949248 (-50)) = true.
Proof. vm_compute. repeat split; reflexivity. Qed.

(** ** The two drag states over a stream of events *)

(** A mouse or pen event leaves the touch anchor as it is. *)
Lemma handle_mouse_keeps_anchor (e : PointerEvent) (s : ControlInteractivity) :
  is_mouse_or_pen (ev_type e) = true ->
  _touchAnchor (state_of (handle e s)) = _touchAnchor s.
Proof.
  destruct e as [k core point modifiers focused pos type].
  unfold handle, state_of. cbn. intros Hty.
  destruct k.
  - unfold PointerPressed. rewrite Hty.
    destruct (IsLeftButtonPressed (Properties point)) eqn:El; cbn.
    + destruct (IsCtrlPressed modifiers
                && negb (empty (GetHyperlink core pos))) eqn:Eh; cbn.
      * destruct (Z.ltb_spec (Timestamp point) (_lastMouseClickTimestamp s))
          as [Hlt | Hge].
        -- rewrite (bind_thrown _ _ _ _ _ _ (NumberOfClicks_throws _ _ _ Hlt)).
           reflexivity.
        -- rewrite (bind_returned _ _ _ _ _ _
                      (NumberOfClicks_returns _ _ _ Hge)).
           unfold _HyperlinkHandler, state_of. unfold_M. split_ifs; reflexivity.
      * destruct (_CanSendVTMouseInput core modifiers) eqn:Evt; cbn.
        -- reflexivity.
        -- destruct (Z.ltb_spec (Timestamp point)
                       (_lastMouseClickTimestamp s)) as [Hlt | Hge].
           ++ rewrite (bind_thrown _ _ _ _ _ _
                         (NumberOfClicks_throws _ _ _ Hlt)).
              reflexivity.
           ++ rewrite (bind_returned _ _ _ _ _ _
                         (NumberOfClicks_returns _ _ _ Hge)).
              unfold state_of. unfold_M. split_ifs; reflexivity.
    + unfold _TrySendMouseEvent, PasteTextFromClipboard,
        CopySelectionToClipboard. unfold_M.
      split_ifs; reflexivity.
  - unfold PointerMoved, _TrySendMouseEvent, _SetEndSelectionPoint.
    rewrite Hty. unfold_M. split_ifs; reflexivity.
  - unfold PointerReleased, _TrySendMouseEvent, CopySelectionToClipboard.
    rewrite Hty. unfold_M. split_ifs; reflexivity.
Qed.

(** A touch event does not start a touchdown. *)
Lemma handle_touch_keeps_no_touchdown (e : PointerEvent)
    (s : ControlInteractivity) :
  is_touch (ev_type e) = true ->
  _singleClickTouchdownPos s = None ->
  _singleClickTouchdownPos (state_of (handle e s)) = None.
Proof.
  destruct e as [k core point modifiers focused pos type].
  unfold handle, state_of. cbn. intros Hty Hs.
  destruct type; try discriminate Hty.
  destruct k.
  - exact Hs.
  - unfold PointerMoved. unfold_M. cbn. split_ifs; assumption.
  - reflexivity.
Qed.

Lemma run_mouse_keeps_anchor (es : list PointerEvent)
    (s : ControlInteractivity) :
  forallb (fun e => is_mouse_or_pen (ev_type e)) es = true ->
  _touchAnchor (run es s) = _touchAnchor s.
Proof.
  revert s. induction es as [ | e es IH]; intros s Hall; cbn in *.
  - reflexivity.
  - apply andb_true_iff in Hall. destruct Hall as [He Hes].
    rewrite (IH _ Hes). apply handle_mouse_keeps_anchor. exact He.
Qed.

Lemma run_touch_keeps_no_touchdown (es : list PointerEvent)
    (s : ControlInteractivity) :
  forallb (fun e => is_touch (ev_type e)) es = true ->
  _singleClickTouchdownPos s = None ->
  _singleClickTouchdownPos (run es s) = None.
Proof.
  revert s. induction es as [ | e es IH]; intros s Hall Hs; cbn in *.
  - exact Hs.
  - apply andb_true_iff in Hall. destruct Hall as [He Hes].
    apply (IH _ Hes). apply handle_touch_keeps_no_touchdown; assumption.
Qed.

(** C4 (as amended).  After any stream of pointer events that all come
    from touch, or all from a mouse or a pen, handled from the
    constructed object, with any positions, modifiers and answers of the
    core, at most one of the touch anchor and the touchdown is set. *)
Theorem run_one_device_one_drag_state (es : list PointerEvent)
    (multiClickTimer multiClickCounter : Z) :
  forallb (fun e => is_touch (ev_type e)) es = true
  \/ forallb (fun e => is_mouse_or_pen (ev_type e)) es = true ->
  let s := run es (constructed multiClickTimer multiClickCounter) in
  _touchAnchor s = None \/ _singleClickTouchdownPos s = None.
Proof.
  intros [Htouch | Hmouse] s; subst s.
  - right. apply run_touch_keeps_no_touchdown; [exact Htouch | reflexivity].
  - left. rewrite (run_mouse_keeps_anchor _ _ Hmouse). reflexivity.
Qed.

Lemma run_one_device_one_drag_state_witness :
  let s := run [pressedAt Touch 100 100 1000; movedTo Touch 100 130 2000]
               (constructed 500000 0) in
  _touchAnchor s = None \/ _singleClickTouchdownPos s = None.
Proof.
  apply (run_one_device_one_drag_state
           [pressedAt Touch 100 100 1000; movedTo Touch 100 130 2000]
           500000 0).
  left. reflexivity.
Defined.

(** C4 (as stated) fails: a touch press and then a left press of the
    mouse leave both the touch anchor and the touchdown set. *)
Lemma touch_then_mouse_press_sets_both :
  let s := run [pressedAt Touch 100 100 1000; pressedAt Mouse 3 4 2000]
               (constructed 500000 0) in
  _touchAnchor s = Some (pt 100 100)
  /\ _singleClickTouchdownPos s = Some (pt 3 4).
Proof. vm_compute. split; reflexivity. Qed.

(** * Further properties of the handlers *)

(** ** [PointerPressed], branch by branch *)

Lemma PointerPressed_touch (core : Core) (point : PointerPoint)
    (modifiers : ControlKeyStates) (focused : bool)
    (terminalPosition : til_point) (s : ControlInteractivity) :
  PointerPressed core point modifiers focused terminalPosition Touch s
  = (Returned tt, set_touchAnchor (Some (contactPoint point)) s, []).
Proof. reflexivity. Qed.

Lemma PointerPressed_hyperlink (core : Core) (point : PointerPoint)
    (modifiers : ControlKeyStates) (focused : bool)
    (terminalPosition : til_point) (type : PointerDeviceType)
    (s : ControlInteractivity) :
  is_mouse_or_pen type = true ->
  IsLeftButtonPressed (Properties point) && IsCtrlPressed modifiers
    && negb (empty (GetHyperlink core terminalPosition)) = true ->
  PointerPressed core point modifiers focused terminalPosition type s
  = if Timestamp point <? _lastMouseClickTimestamp s
    then (Thrown INTSAFE_E_ARITHMETIC_OVERFLOW, s, [])
    else (Returned tt, clicked s (Position point) (Timestamp point),
          if nextCount s (Position point) (Timestamp point) =? 1
          then [OpenHyperlink (GetHyperlink core terminalPosition)]
          else []).
Proof.
  intros Hty Hh. unfold PointerPressed. rewrite Hty, Hh.
  destruct (Z.ltb_spec (Timestamp point) (_lastMouseClickTimestamp s))
    as [Hlt | Hge].
  - apply bind_thrown, NumberOfClicks_throws; assumption.
  - rewrite (bind_returned _ _ _ _ _ _ (NumberOfClicks_returns _ _ _ Hge)).
    unfold _HyperlinkHandler, result_of, state_of, calls_of. unfold_M.
    destruct (nextCount s (Position point) (Timestamp point) =? 1);
      reflexivity.
Qed.

Lemma PointerPressed_forwarded (core : Core) (point : PointerPoint)
    (modifiers : ControlKeyStates) (focused : bool)
    (terminalPosition : til_point) (type : PointerDeviceType)
    (s : ControlInteractivity) :
  is_mouse_or_pen type = true ->
  IsLeftButtonPressed (Properties point) && IsCtrlPressed modifiers
    && negb (empty (GetHyperlink core terminalPosition)) = false ->
  _CanSendVTMouseInput core modifiers = true ->
  PointerPressed core point modifiers focused terminalPosition type s
  = (Returned tt, s, [mouseEventOf point modifiers terminalPosition]).
Proof.
  intros Hty Hh Hvt. unfold PointerPressed. rewrite Hty, Hh, Hvt.
  reflexivity.
Qed.

Lemma PointerPressed_left (core : Core) (point : PointerPoint)
    (modifiers : ControlKeyStates) (focused : bool)
    (terminalPosition : til_point) (type : PointerDeviceType)
    (s : ControlInteractivity) :
  is_mouse_or_pen type = true ->
  IsLeftButtonPressed (Properties point) && IsCtrlPressed modifiers
    && negb (empty (GetHyperlink core terminalPosition)) = false ->
  _CanSendVTMouseInput core modifiers = false ->
  IsLeftButtonPressed (Properties point) = true ->
  PointerPressed core point modifiers focused terminalPosition type s
  = if Timestamp point <? _lastMouseClickTimestamp s
    then (Thrown INTSAFE_E_ARITHMETIC_OVERFLOW, s, [])
    else (Returned tt, leftClicked core point terminalPosition s,
          [leftClickCall core point modifiers terminalPosition s]).
Proof.
  intros Hty Hh Hvt Hl. unfold PointerPressed. rewrite Hty, Hh, Hvt, Hl.
  destruct (Z.ltb_spec (Timestamp point) (_lastMouseClickTimestamp s))
    as [Hlt | Hge].
  - apply bind_thrown, NumberOfClicks_throws; assumption.
  - rewrite (bind_returned _ _ _ _ _ _ (NumberOfClicks_returns _ _ _ Hge)).
    unfold leftClicked, leftClickCall, result_of, state_of, calls_of.
    unfold_M. cbn.
    destruct ((multiClickMapper (nextCount s (Position point) (Timestamp point))
               =? 1) && negb (HasSelection core)); reflexivity.
Qed.

Lemma PointerPressed_right (core : Core) (point : PointerPoint)
    (modifiers : ControlKeyStates) (focused : bool)
    (terminalPosition : til_point) (type : PointerDeviceType)
    (s : ControlInteractivity) :
  is_mouse_or_pen type = true ->
  _CanSendVTMouseInput core modifiers = false ->
  IsLeftButtonPressed (Properties point) = false ->
  PointerPressed core point modifiers focused terminalPosition type s
  = if IsRightButtonPressed (Properties point)
    then if CopyOnSelect core || negb (HasSelection core)
         then (Returned tt, s, [PasteFromClipboard])
         else (Returned tt, set_selectionNeedsToBeCopied false s,
               [CoreCopySelectionToClipboard (IsShiftPressed modifiers) None])
    else (Returned tt, s, []).
Proof.
  intros Hty Hvt Hl. unfold PointerPressed. rewrite Hty, Hl, Hvt. cbn.
  destruct (IsRightButtonPressed (Properties point)); [ | reflexivity].
  destruct (CopyOnSelect core || negb (HasSelection core)); reflexivity.
Qed.

Lemma PointerPressed_shape (core : Core) (point : PointerPoint)
    (modifiers : ControlKeyStates) (focused : bool)
    (terminalPosition : til_point) (type : PointerDeviceType)
    (s : ControlInteractivity) :
  PressShape core point modifiers terminalPosition s
    (PointerPressed core point modifiers focused terminalPosition type s).
Proof.
  destruct (is_mouse_or_pen type) eqn:Hty.
  - destruct (IsLeftButtonPressed (Properties point)) eqn:Hl.
    + destruct (IsCtrlPressed modifiers
                && negb (empty (GetHyperlink core terminalPosition))) eqn:Hc.
      * assert (Hh : IsLeftButtonPressed (Properties point)
                     && IsCtrlPressed modifiers
                     && negb (empty (GetHyperlink core terminalPosition))
                     = true)
          by (rewrite Hl, <- andb_assoc; exact Hc).
        rewrite (PointerPressed_hyperlink _ _ _ _ _ _ _ Hty Hh).
        destruct (Timestamp point <? _lastMouseClickTimestamp s);
          [apply press_threw | ].
        apply press_link.
        destruct (nextCount s (Position point) (Timestamp point) =? 1);
          [right | left]; reflexivity.
      * assert (Hh : IsLeftButtonPressed (Properties point)
                     && IsCtrlPressed modifiers
                     && negb (empty (GetHyperlink core terminalPosition))
                     = false)
          by (rewrite Hl, <- andb_assoc; exact Hc).
        destruct (_CanSendVTMouseInput core modifiers) eqn:Hvt.
        -- rewrite (PointerPressed_forwarded _ _ _ _ _ _ _ Hty Hh Hvt).
           apply press_forwarded.
        -- rewrite (PointerPressed_left _ _ _ _ _ _ _ Hty Hh Hvt Hl).
           destruct (Timestamp point <? _lastMouseClickTimestamp s);
             [apply press_threw | apply press_left].
    + assert (Hh : IsLeftButtonPressed (Properties point)
                   && IsCtrlPressed modifiers
                   && negb (empty (GetHyperlink core terminalPosition))
                   = false)
        by (rewrite Hl; reflexivity).
      destruct (_CanSendVTMouseInput core modifiers) eqn:Hvt.
      * rewrite (PointerPressed_forwarded _ _ _ _ _ _ _ Hty Hh Hvt).
        apply press_forwarded.
      * rewrite (PointerPressed_right _ _ _ _ _ _ _ Hty Hvt Hl).
        destruct (IsRightButtonPressed (Properties point));
          [ | apply press_nothing].
        destruct (CopyOnSelect core || negb (HasSelection core));
          [apply press_paste | apply press_copy].
  - destruct type; try discriminate Hty. apply press_touch.
Qed.

(** ** The click count handed to the terminal *)

Lemma nextCount_range (s : ControlInteractivity) (clickPos : Point)
    (clickTime : Z) :
  0 <= nextCount s clickPos clickTime < UINT_MOD.
Proof.
  unfold nextCount.
  destruct (optPoint_neqb (_lastMouseClickPos s) clickPos
            || (_multiClickTimer s <? clickTime - _lastMouseClickTimestamp s)).
  - change UINT_MOD with 4294967296. lia.
  - apply Z.mod_pos_bound. reflexivity.
Qed.

Lemma multiClickMapper_range (c : Z) :
  0 <= c < UINT_MOD -> 0 <= multiClickMapper c <= 3.
Proof.
  intros Hc. unfold multiClickMapper, MAX_CLICK_COUNT.
  destruct (Z.ltb_spec 3 c) as [Hgt | Hle]; [ | lia].
  pose proof (Z.mod_pos_bound ((c + 3 - 1) mod UINT_MOD) 3 eq_refl). lia.
Qed.

(** X1.  Below the wrap of the counter the mapped click count is
    ((count - 1) mod 3) + 1: it stays within 1..3 and repeats with
    period 3, so a burst of clicks goes 1, 2, 3, 1, 2, 3, ... *)
Theorem multiClickMapper_period_three (clickCount : Z) :
  1 <= clickCount <= UINT_MOD - 3 ->
  multiClickMapper clickCount = (clickCount - 1) mod 3 + 1
  /\ 1 <= multiClickMapper clickCount <= 3
  /\ (clickCount + 3 <= UINT_MOD - 3 ->
      multiClickMapper (clickCount + 3) = multiClickMapper clickCount).
Proof.
  intros Hc. change UINT_MOD with 4294967296 in *.
  assert (Heq : forall c, 1 <= c <= 4294967293 ->
                          multiClickMapper c = (c - 1) mod 3 + 1).
  { intros c Hr. unfold multiClickMapper, MAX_CLICK_COUNT.
    change UINT_MOD with 4294967296.
    destruct (Z.ltb_spec 3 c) as [Hgt | Hle].
    - rewrite (Z.mod_small (c + 3 - 1)) by lia.
      replace (c + 3 - 1) with (c - 1 + 1 * 3) by lia.
      rewrite Z.mod_add by lia. reflexivity.
    - assert (Hcases : c = 1 \/ c = 2 \/ c = 3) by lia.
      destruct Hcases as [-> | [-> | ->]]; reflexivity. }
  split; [apply Heq; lia | ].
  split.
  - rewrite (Heq _ Hc).
    pose proof (Z.mod_pos_bound (clickCount - 1) 3 eq_refl). lia.
  - intros Hc3. rewrite (Heq clickCount Hc), (Heq (clickCount + 3)) by lia.
    replace (clickCount + 3 - 1) with (clickCount - 1 + 1 * 3) by lia.
    rewrite Z.mod_add by lia. reflexivity.
Qed.

Lemma multiClickMapper_period_three_witness :
  multiClickMapper 7 = (7 - 1) mod 3 + 1
  /\ 1 <= multiClickMapper 7 <= 3
  /\ (7 + 3 <= UINT_MOD - 3 -> multiClickMapper (7 + 3) = multiClickMapper 7).
Proof.
  apply (multiClickMapper_period_three 7). change UINT_MOD with 4294967296. lia.
Defined.

(** ** The message of a mouse event *)

Lemma saturated_cast_short_range (v : Z) :
  -32768 <= saturated_cast_short v <= 32767.
Proof.
  unfold saturated_cast_short.
  destruct (Z.ltb_spec v (-32768)); [lia | ].
  destruct (Z.ltb_spec 32767 v); lia.
Qed.

Lemma saturated_cast_short_zero (v : Z) :
  saturated_cast_short v = 0 <-> v = 0.
Proof.
  unfold saturated_cast_short.
  destruct (Z.ltb_spec v (-32768)); [lia | ].
  destruct (Z.ltb_spec 32767 v); lia.
Qed.

(** X2.  The message sent for a pointer is the wheel message exactly
    when the wheel delta is not zero and the wheel is not the horizontal
    one, whatever button changed at the same time; clamping the delta to a
    [short] never turns a turned wheel into a still one. *)
Theorem uiButton_of_wheel_iff (props : PointerPointProperties) :
  uiButton_of props = WM_MOUSEWHEEL
  <-> MouseWheelDelta props <> 0 /\ IsHorizontalMouseWheel props = false.
Proof.
  unfold uiButton_of.
  pose proof (saturated_cast_short_zero (MouseWheelDelta props)) as Hz.
  destruct (Z.eqb_spec (saturated_cast_short (MouseWheelDelta props)) 0)
    as [H0 | Hn0]; cbn [negb andb].
  - split.
    + destruct (UpdateKind props); intros H; discriminate H.
    + intros [Hd _]. exfalso. apply Hd, Hz, H0.
  - destruct (IsHorizontalMouseWheel props); cbn [negb].
    + split.
      * destruct (UpdateKind props); intros H; discriminate H.
      * intros [_ Hh]. discriminate Hh.
    + split; [ | reflexivity].
      intros _. split; [ | reflexivity]. intros Hd. apply Hn0, Hz, Hd.
Qed.

(** X3.  With the wheel still (or horizontal), the six button transitions
    get six different messages, none of them the move message, and every
    other update is a move. *)
Theorem uiButton_of_tells_transitions_apart (p q : PointerPointProperties) :
  MouseWheelDelta p = 0 \/ IsHorizontalMouseWheel p = true ->
  MouseWheelDelta q = 0 \/ IsHorizontalMouseWheel q = true ->
  (isButtonTransition (UpdateKind p) = true ->
   uiButton_of p = uiButton_of q -> UpdateKind p = UpdateKind q)
  /\ (uiButton_of p = WM_MOUSEMOVE
      <-> isButtonTransition (UpdateKind p) = false).
Proof.
  intros Hp Hq.
  assert (Hno : forall r, MouseWheelDelta r = 0 \/ IsHorizontalMouseWheel r = true ->
            negb (saturated_cast_short (MouseWheelDelta r) =? 0)
            && negb (IsHorizontalMouseWheel r) = false).
  { intros r [H0 | Hh].
    - rewrite H0. reflexivity.
    - rewrite Hh. apply andb_false_r. }
  unfold uiButton_of. rewrite (Hno p Hp), (Hno q Hq).
  split.
  - destruct (UpdateKind p); cbn; intros Hb; try discriminate Hb;
      destruct (UpdateKind q); intros H; try discriminate H; reflexivity.
  - destruct (UpdateKind p); cbn; split; intros H;
      try discriminate H; reflexivity.
Qed.

Lemma uiButton_of_tells_transitions_apart_witness :
  uiButton_of (props true false LeftButtonPressed noRect) = WM_MOUSEMOVE
  <-> isButtonTransition LeftButtonPressed = false.
Proof.
  exact (proj2 (uiButton_of_tells_transitions_apart
                  (props true false LeftButtonPressed noRect)
                  (props false false Other noRect)
                  (or_introl eq_refl) (or_introl eq_refl))).
Defined.

(** ** [PointerMoved] and [PointerReleased], branch by branch *)

Lemma PointerMoved_mouse (core : Core) (point : PointerPoint)
    (modifiers : ControlKeyStates) (focused : bool)
    (terminalPosition : til_point) (type : PointerDeviceType)
    (s : ControlInteractivity) :
  is_mouse_or_pen type = true ->
  PointerMoved core point modifiers focused terminalPosition type s
  = if focused && negb (IsInReadOnlyMode core)
       && _CanSendVTMouseInput core modifiers
    then (Returned tt, s,
          [mouseEventOf point modifiers terminalPosition;
           UpdateHoveredCell terminalPosition])
    else if focused && IsLeftButtonPressed (Properties point)
    then (Returned tt,
          set_selectionNeedsToBeCopied true
            (if dragStarts core point s
             then set_singleClickTouchdownTerminalPos None
                    (set_singleClickTouchdownPos None s)
             else s),
          (if dragStarts core point s
           then [SetSelectionAnchor terminalPosition] else [])
          ++ [SetEndSelectionPoint terminalPosition;
              UpdateHoveredCell terminalPosition])
    else (Returned tt, s, [UpdateHoveredCell terminalPosition]).
Proof.
  intros Hty.
  unfold PointerMoved, _TrySendMouseEvent, _SetEndSelectionPoint, dragStarts.
  rewrite Hty. unfold_M.
  destruct (focused && negb (IsInReadOnlyMode core)
            && _CanSendVTMouseInput core modifiers); [reflexivity | ].
  destruct (focused && IsLeftButtonPressed (Properties point));
    [ | reflexivity].
  destruct (_singleClickTouchdownPos s) as [touchdownPoint | ];
    [ | reflexivity].
  destruct (F32.leb (quarterCell (fontSizeInDips core))
              (distance core (Position point) touchdownPoint)); reflexivity.
Qed.

Lemma PointerMoved_touch (core : Core) (point : PointerPoint)
    (modifiers : ControlKeyStates) (focused : bool)
    (terminalPosition : til_point) (s : ControlInteractivity) :
  PointerMoved core point modifiers focused terminalPosition Touch s
  = if focused && touchPans core point s
    then (Returned tt, set_touchAnchor (Some (contactPoint point)) s,
          [UserScrollViewport (panTarget core point s)])
    else (Returned tt, s, []).
Proof.
  unfold PointerMoved, touchPans, panTarget. unfold_M. cbn.
  destruct focused; [ | reflexivity]. cbn.
  destruct (_touchAnchor s) as [anchor | ]; [ | reflexivity].
  destruct (F32.ltb _ _); reflexivity.
Qed.

Lemma PointerReleased_mouse (core : Core) (point : PointerPoint)
    (modifiers : ControlKeyStates) (focused : bool)
    (terminalPosition : til_point) (type : PointerDeviceType)
    (s : ControlInteractivity) :
  is_mouse_or_pen type = true ->
  PointerReleased core point modifiers focused terminalPosition type s
  = if negb (IsInReadOnlyMode core) && _CanSendVTMouseInput core modifiers
    then (Returned tt, s, [mouseEventOf point modifiers terminalPosition])
    else (Returned tt,
          set_singleClickTouchdownTerminalPos None
            (set_singleClickTouchdownPos None
               (if releaseCopies core point s
                then set_selectionNeedsToBeCopied false s else s)),
          if releaseCopies core point s
          then [CoreCopySelectionToClipboard false None] else []).
Proof.
  intros Hty.
  unfold PointerReleased, _TrySendMouseEvent, CopySelectionToClipboard,
    releaseCopies.
  rewrite Hty. unfold_M.
  destruct (negb (IsInReadOnlyMode core)
            && _CanSendVTMouseInput core modifiers); [reflexivity | ].
  cbn.
  destruct (CopyOnSelect core
            && PointerUpdateKind_eqb (UpdateKind (Properties point))
                 LeftButtonReleased
            && _selectionNeedsToBeCopied s); reflexivity.
Qed.

Lemma PointerReleased_touch (core : Core) (point : PointerPoint)
    (modifiers : ControlKeyStates) (focused : bool)
    (terminalPosition : til_point) (s : ControlInteractivity) :
  PointerReleased core point modifiers focused terminalPosition Touch s
  = (Returned tt,
     set_singleClickTouchdownTerminalPos None
       (set_singleClickTouchdownPos None (set_touchAnchor None s)), []).
Proof. reflexivity. Qed.

Lemma device_cases (type : PointerDeviceType) :
  is_mouse_or_pen type = true \/ type = Touch.
Proof. destruct type; [right | left | left]; reflexivity. Qed.

(** Goes through the members of a short list of calls. *)
Ltac in_cases H :=
  cbn in H;
  repeat match type of H with
         | _ \/ _ => destruct H as [H | H]
         | False => destruct H
         end.

(** ** What a handler sends, and when *)

Lemma handle_send_is_own (e : PointerEvent) (s : ControlInteractivity)
    (c : CoreCall) :
  In c (calls_of (handle e s)) -> isSendMouseEvent c = true ->
  c = mouseEventOf (ev_point e) (ev_modifiers e) (ev_terminalPosition e).
Proof.
  destruct e as [k core point modifiers focused pos type].
  unfold handle. cbn. intros Hin Hc.
  destruct k.
  - pose proof (PointerPressed_shape core point modifiers focused pos type s)
      as Hs.
    inversion Hs as [Hr | Hr | l Hl Hr | Hr | Hr | Hr | Hr | Hr];
      rewrite <- Hr in Hin; unfold calls_of in Hin.
    all: try (in_cases Hin; subst c;
              solve [reflexivity | discriminate Hc]).
    destruct Hl as [-> | ->]; in_cases Hin; subst c; discriminate Hc.
  - destruct (device_cases type) as [Hty | ->].
    + rewrite (PointerMoved_mouse _ _ _ _ _ _ _ Hty) in Hin.
      destruct (focused && negb (IsInReadOnlyMode core)
                && _CanSendVTMouseInput core modifiers);
        [ | destruct (focused && IsLeftButtonPressed (Properties point));
            [destruct (dragStarts core point s) | ] ];
        in_cases Hin; subst c; solve [reflexivity | discriminate Hc].
    + rewrite PointerMoved_touch in Hin.
      destruct (focused && touchPans core point s);
        in_cases Hin; subst c; discriminate Hc.
  - destruct (device_cases type) as [Hty | ->].
    + rewrite (PointerReleased_mouse _ _ _ _ _ _ _ Hty) in Hin.
      destruct (negb (IsInReadOnlyMode core)
                && _CanSendVTMouseInput core modifiers);
        [ | destruct (releaseCopies core point s)];
        in_cases Hin; subst c; solve [reflexivity | discriminate Hc].
    + rewrite PointerReleased_touch in Hin. in_cases Hin.
Qed.

(** X4.  Whatever [SendMouseEvent] call a handler makes carries the
    handler's own cell and modifiers, the message of the pointer's update,
    the buttons the pointer reports as held, and the wheel delta clamped
    to the range of a [short]. *)
Theorem handle_sends_own_mouse_event (e : PointerEvent)
    (s : ControlInteractivity) (terminalPosition : til_point) (uiButton : Z)
    (modifiers : ControlKeyStates) (sWheelDelta : Z)
    (state : MouseButtonState) :
  In (SendMouseEvent terminalPosition uiButton modifiers sWheelDelta state)
     (calls_of (handle e s)) ->
  terminalPosition = ev_terminalPosition e
  /\ modifiers = ev_modifiers e
  /\ uiButton = uiButton_of (Properties (ev_point e))
  /\ -32768 <= sWheelDelta <= 32767
  /\ (sWheelDelta = 0 <-> MouseWheelDelta (Properties (ev_point e)) = 0)
  /\ isLeftButtonDown state = IsLeftButtonPressed (Properties (ev_point e))
  /\ isMiddleButtonDown state
     = IsMiddleButtonPressed (Properties (ev_point e))
  /\ isRightButtonDown state = IsRightButtonPressed (Properties (ev_point e)).
Proof.
  intros Hin.
  pose proof (handle_send_is_own e s _ Hin eq_refl) as Heq.
  unfold mouseEventOf in Heq. injection Heq as -> -> -> -> ->.
  repeat split; try reflexivity.
  - apply saturated_cast_short_range.
  - apply saturated_cast_short_range.
  - apply saturated_cast_short_zero.
  - apply saturated_cast_short_zero.
Qed.

Lemma handle_sends_own_mouse_event_witness :
  let e := {| ev_kind := Released; ev_core := withVtMouseMode plainCore;
              ev_point := pointAt 3 4 1000
                            (props false false LeftButtonReleased noRect);
              ev_modifiers := noModifiers; ev_focused := true;
              ev_terminalPosition := cell 1 2; ev_type := Mouse |} in
  WM_LBUTTONUP = uiButton_of (Properties (ev_point e)).
Proof.
  intros e.
  exact (proj1 (proj2 (proj2
    (handle_sends_own_mouse_event e fresh (cell 1 2) WM_LBUTTONUP noModifiers 0
       {| isLeftButtonDown := false; isMiddleButtonDown := false;
          isRightButtonDown := false |}
       (or_introl eq_refl))))).
Defined.

(** X5.  A press makes at most one call: it is a hyperlink activation, a
    forwarded mouse event, a click on the terminal, a paste or a copy, and
    never two of them. *)
Theorem PointerPressed_at_most_one_call (core : Core) (point : PointerPoint)
    (modifiers : ControlKeyStates) (focused : bool)
    (terminalPosition : til_point) (type : PointerDeviceType)
    (s : ControlInteractivity) :
  (List.length
     (calls_of (PointerPressed core point modifiers focused terminalPosition
                  type s)) <= 1)%nat.
Proof.
  pose proof (PointerPressed_shape core point modifiers focused
                terminalPosition type s) as Hs.
  inversion Hs as [Hr | Hr | l Hl Hr | Hr | Hr | Hr | Hr | Hr];
    unfold calls_of; cbn; try apply le_n; try apply le_S, le_n.
  destruct Hl as [-> | ->]; cbn; [apply le_S, le_n | apply le_n].
Qed.

(** X6.  A forwarded event is left to the terminal: when a handler sends
    the mouse event it returns with the members untouched and makes no
    other call, but for the update of the hovered cell that ends every
    move. *)
Theorem forwarded_event_changes_nothing (e : PointerEvent)
    (s : ControlInteractivity) :
  forwarded (calls_of (handle e s)) = true ->
  handle e s
  = (Returned tt, s,
     mouseEventOf (ev_point e) (ev_modifiers e) (ev_terminalPosition e)
     :: match ev_kind e with
        | Moved => [UpdateHoveredCell (ev_terminalPosition e)]
        | _ => []
        end).
Proof.
  destruct e as [k core point modifiers focused pos type].
  unfold handle, forwarded. cbn. intros Hf.
  destruct k.
  - pose proof (PointerPressed_shape core point modifiers focused pos type s)
      as Hs.
    inversion Hs as [Hr | Hr | l Hl Hr | Hr | Hr | Hr | Hr | Hr];
      rewrite <- Hr in Hf; unfold calls_of in Hf; cbn in Hf;
      try discriminate Hf; try reflexivity.
    destruct Hl as [-> | ->]; discriminate Hf.
  - destruct (device_cases type) as [Hty | ->].
    + rewrite (PointerMoved_mouse _ _ _ _ _ _ _ Hty) in *.
      destruct (focused && negb (IsInReadOnlyMode core)
                && _CanSendVTMouseInput core modifiers);
        [reflexivity | ].
      destruct (focused && IsLeftButtonPressed (Properties point));
        [destruct (dragStarts core point s) | ]; discriminate Hf.
    + rewrite PointerMoved_touch in *.
      destruct (focused && touchPans core point s); discriminate Hf.
  - destruct (device_cases type) as [Hty | ->].
    + rewrite (PointerReleased_mouse _ _ _ _ _ _ _ Hty) in *.
      destruct (negb (IsInReadOnlyMode core)
                && _CanSendVTMouseInput core modifiers);
        [reflexivity | ].
      destruct (releaseCopies core point s); discriminate Hf.
    + rewrite PointerReleased_touch in Hf. discriminate Hf.
Qed.

Lemma forwarded_event_changes_nothing_witness :
  let e := {| ev_kind := Moved; ev_core := withVtMouseMode plainCore;
              ev_point := pointAt 30 4 2000 (props true false Other noRect);
              ev_modifiers := noModifiers; ev_focused := true;
              ev_terminalPosition := cell 4 2; ev_type := Pen |} in
  state_of (handle e (set_selectionNeedsToBeCopied true fresh))
  = set_selectionNeedsToBeCopied true fresh.
Proof.
  intros e.
  rewrite (forwarded_event_changes_nothing e
             (set_selectionNeedsToBeCopied true fresh) eq_refl).
  reflexivity.
Defined.

(** ** Clicks handled in the control *)

(** X7.  Shift takes the mouse back from the application: a left press on
    a mouse or a pen with Shift held (and no Ctrl+hyperlink under it),
    stamped no earlier than the stored click, is never forwarded,
    whatever the mouse mode of the terminal; it registers a click and
    clicks the terminal once, with a count within 0..3 and the Shift flag
    set. *)
Theorem PointerPressed_shift_clicks_locally (core : Core)
    (point : PointerPoint) (modifiers : ControlKeyStates) (focused : bool)
    (terminalPosition : til_point) (type : PointerDeviceType)
    (s : ControlInteractivity) :
  is_mouse_or_pen type = true ->
  IsLeftButtonPressed (Properties point) = true ->
  IsShiftPressed modifiers = true ->
  IsCtrlPressed modifiers
    && negb (empty (GetHyperlink core terminalPosition)) = false ->
  _lastMouseClickTimestamp s <= Timestamp point ->
  let r := PointerPressed core point modifiers focused terminalPosition type s in
  exists numberOfClicks isOnOriginalPosition,
    calls_of r
    = [LeftClickOnTerminal terminalPosition numberOfClicks
         (IsAltPressed modifiers) true isOnOriginalPosition
         (_selectionNeedsToBeCopied s)]
    /\ 0 <= numberOfClicks <= 3
    /\ result_of r = Returned tt
    /\ _lastMouseClickPos (state_of r) = Some (Position point)
    /\ _lastMouseClickTimestamp (state_of r) = Timestamp point.
Proof.
  intros Hty Hl Hsh Hc Ht r. subst r.
  assert (Hh : IsLeftButtonPressed (Properties point) && IsCtrlPressed modifiers
               && negb (empty (GetHyperlink core terminalPosition)) = false)
    by (rewrite Hl, <- andb_assoc; exact Hc).
  assert (Hvt : _CanSendVTMouseInput core modifiers = false)
    by (unfold _CanSendVTMouseInput; rewrite Hsh; reflexivity).
  rewrite (PointerPressed_left _ _ _ focused _ _ s Hty Hh Hvt Hl).
  destruct (Z.ltb_spec (Timestamp point) (_lastMouseClickTimestamp s));
    [lia | ].
  unfold leftClickCall, leftClicked, result_of, state_of, calls_of.
  rewrite Hsh. cbn [fst snd].
  eexists. eexists. split; [reflexivity | ].
  split; [apply multiClickMapper_range, nextCount_range | ].
  destruct ((multiClickMapper
               (_multiClickCounter (clicked s (Position point) (Timestamp point)))
             =? 1) && negb (HasSelection core));
    repeat split; reflexivity.
Qed.

Lemma PointerPressed_shift_clicks_locally_witness :
  calls_of
    (PointerPressed (withVtMouseMode plainCore)
       (pointAt 3 4 1000 (props true false LeftButtonPressed noRect))
       shiftHeld true (cell 1 2) Mouse fresh)
  = [LeftClickOnTerminal (cell 1 2) 1 false true true false].
Proof.
  destruct (PointerPressed_shift_clicks_locally (withVtMouseMode plainCore)
              (pointAt 3 4 1000 (props true false LeftButtonPressed noRect))
              shiftHeld true (cell 1 2) Mouse fresh)
    as (n & b & Hcalls & _); try reflexivity.
  cbn. lia.
Defined.

(** X8.  Right click pastes when there is nothing to copy or when
    copy-on-select is on: a right press on a mouse or a pen that is not
    forwarded, the left button not held, raises the paste event once and
    leaves the members as they are; with no selection this is so
    whatever copy-on-select says. *)
Theorem PointerPressed_right_click_pastes (core : Core)
    (point : PointerPoint) (modifiers : ControlKeyStates) (focused : bool)
    (terminalPosition : til_point) (type : PointerDeviceType)
    (s : ControlInteractivity) :
  is_mouse_or_pen type = true ->
  _CanSendVTMouseInput core modifiers = false ->
  IsLeftButtonPressed (Properties point) = false ->
  IsRightButtonPressed (Properties point) = true ->
  CopyOnSelect core = true \/ HasSelection core = false ->
  PointerPressed core point modifiers focused terminalPosition type s
  = (Returned tt, s, [PasteFromClipboard]).
Proof.
  intros Hty Hvt Hl Hr Hp.
  rewrite (PointerPressed_right _ _ _ focused _ _ s Hty Hvt Hl), Hr.
  destruct Hp as [-> | ->]; [reflexivity | ].
  rewrite orb_true_r. reflexivity.
Qed.

Lemma PointerPressed_right_click_pastes_witness :
  PointerPressed plainCore
    (pointAt 3 4 1000 (props false true RightButtonPressed noRect))
    noModifiers true (cell 1 2) Mouse fresh
  = (Returned tt, fresh, [PasteFromClipboard]).
Proof.
  apply (PointerPressed_right_click_pastes plainCore
           (pointAt 3 4 1000 (props false true RightButtonPressed noRect))
           noModifiers true (cell 1 2) Mouse fresh);
    try reflexivity.
  right. reflexivity.
Defined.

(** X9.  The terminal is clicked only by presses, and the click count it
    is given never exceeds 3 (it is 0 only right after the 32-bit counter
    wrapped); the call carries the cell and the Alt and Shift state of the
    press and the copy flag as it stood before the press. *)
Theorem LeftClickOnTerminal_only_from_press (e : PointerEvent)
    (s : ControlInteractivity) (terminalPosition : til_point)
    (numberOfClicks : Z)
    (altEnabled shiftEnabled isOnOriginalPosition copyFlag : bool) :
  In (LeftClickOnTerminal terminalPosition numberOfClicks altEnabled
        shiftEnabled isOnOriginalPosition copyFlag)
     (calls_of (handle e s)) ->
  ev_kind e = Pressed
  /\ 0 <= numberOfClicks <= 3
  /\ terminalPosition = ev_terminalPosition e
  /\ altEnabled = IsAltPressed (ev_modifiers e)
  /\ shiftEnabled = IsShiftPressed (ev_modifiers e)
  /\ copyFlag = _selectionNeedsToBeCopied s.
Proof.
  destruct e as [k core point modifiers focused pos type].
  unfold handle. cbn. intros Hin.
  destruct k.
  - pose proof (PointerPressed_shape core point modifiers focused pos type s)
      as Hs.
    inversion Hs as [Hr | Hr | l Hl Hr | Hr | Hr | Hr | Hr | Hr];
      rewrite <- Hr in Hin; unfold calls_of in Hin.
    all: try (in_cases Hin; discriminate Hin).
    + destruct Hl as [-> | ->]; in_cases Hin; discriminate Hin.
    + in_cases Hin. unfold leftClickCall in Hin.
      injection Hin as <- <- <- <- _ <-.
      repeat split; try reflexivity;
        apply multiClickMapper_range, nextCount_range.
  - exfalso. destruct (device_cases type) as [Hty | ->].
    + rewrite (PointerMoved_mouse _ _ _ _ _ _ _ Hty) in Hin.
      destruct (focused && negb (IsInReadOnlyMode core)
                && _CanSendVTMouseInput core modifiers);
        [ | destruct (focused && IsLeftButtonPressed (Properties point));
            [destruct (dragStarts core point s) | ] ];
        in_cases Hin; discriminate Hin.
    + rewrite PointerMoved_touch in Hin.
      destruct (focused && touchPans core point s);
        in_cases Hin; discriminate Hin.
  - exfalso. destruct (device_cases type) as [Hty | ->].
    + rewrite (PointerReleased_mouse _ _ _ _ _ _ _ Hty) in Hin.
      destruct (negb (IsInReadOnlyMode core)
                && _CanSendVTMouseInput core modifiers);
        [ | destruct (releaseCopies core point s)];
        in_cases Hin; discriminate Hin.
    + rewrite PointerReleased_touch in Hin. in_cases Hin.
Qed.

Lemma LeftClickOnTerminal_only_from_press_witness :
  ev_kind (pressedAt Mouse 3 4 1000) = Pressed /\ 0 <= 1 <= 3.
Proof.
  destruct (LeftClickOnTerminal_only_from_press (pressedAt Mouse 3 4 1000)
              fresh (cell 1 2) 1 false false true false
              (or_introl eq_refl)) as (Hk & Hn & _).
  split; [exact Hk | exact Hn].
Defined.

(** ** What the handlers leave alone *)

(** X10.  Only a press that registers a click writes the click state: no
    handler ever writes the multi-click timer, and every event other than
    such a press (moves, releases, touch, forwarded presses, right
    clicks) leaves the counter and the stored position and timestamp of
    the last click as they were. *)
Theorem click_state_written_only_by_clicks (e : PointerEvent)
    (s : ControlInteractivity) :
  _multiClickTimer (state_of (handle e s)) = _multiClickTimer s
  /\ (registersClick e = false ->
      _multiClickCounter (state_of (handle e s)) = _multiClickCounter s
      /\ _lastMouseClickPos (state_of (handle e s)) = _lastMouseClickPos s
      /\ _lastMouseClickTimestamp (state_of (handle e s))
         = _lastMouseClickTimestamp s).
Proof.
  destruct e as [k core point modifiers focused pos type].
  unfold handle, registersClick. cbn.
  destruct k.
  - split.
    + pose proof (PointerPressed_shape core point modifiers focused pos type s)
        as Hs.
      inversion Hs as [Hr | Hr | l Hl Hr | Hr | Hr | Hr | Hr | Hr];
        unfold state_of; cbn; try reflexivity.
      unfold leftClicked.
      destruct ((multiClickMapper _ =? 1) && negb (HasSelection core));
        reflexivity.
    + intros Hreg.
      destruct (device_cases type) as [Hty | ->]; [ | repeat split; reflexivity].
      rewrite Hty in Hreg. cbn in Hreg.
      destruct (IsLeftButtonPressed (Properties point)) eqn:Hl; cbn in Hreg.
      * apply orb_false_iff in Hreg. destruct Hreg as [Hc Hvt].
        apply negb_false_iff in Hvt.
        assert (Hh : IsLeftButtonPressed (Properties point)
                     && IsCtrlPressed modifiers
                     && negb (empty (GetHyperlink core pos)) = false)
          by (rewrite Hl, <- andb_assoc; exact Hc).
        rewrite (PointerPressed_forwarded _ _ _ _ _ _ _ Hty Hh Hvt).
        repeat split; reflexivity.
      * assert (Hh : IsLeftButtonPressed (Properties point)
                     && IsCtrlPressed modifiers
                     && negb (empty (GetHyperlink core pos)) = false)
          by (rewrite Hl; reflexivity).
        destruct (_CanSendVTMouseInput core modifiers) eqn:Hvt.
        -- rewrite (PointerPressed_forwarded _ _ _ _ _ _ _ Hty Hh Hvt).
           repeat split; reflexivity.
        -- rewrite (PointerPressed_right _ _ _ _ _ _ _ Hty Hvt Hl).
           destruct (IsRightButtonPressed (Properties point));
             [destruct (CopyOnSelect core || negb (HasSelection core)) | ];
             repeat split; reflexivity.
  - destruct (device_cases type) as [Hty | ->].
    + rewrite (PointerMoved_mouse _ _ _ _ _ _ _ Hty).
      destruct (focused && negb (IsInReadOnlyMode core)
                && _CanSendVTMouseInput core modifiers);
        [ | destruct (focused && IsLeftButtonPressed (Properties point));
            [destruct (dragStarts core point s) | ] ];
        repeat split; reflexivity.
    + rewrite PointerMoved_touch.
      destruct (focused && touchPans core point s); repeat split; reflexivity.
  - destruct (device_cases type) as [Hty | ->].
    + rewrite (PointerReleased_mouse _ _ _ _ _ _ _ Hty).
      destruct (negb (IsInReadOnlyMode core)
                && _CanSendVTMouseInput core modifiers);
        [ | destruct (releaseCopies core point s)];
        repeat split; reflexivity.
    + rewrite PointerReleased_touch. repeat split; reflexivity.
Qed.

Lemma click_state_written_only_by_clicks_witness :
  _multiClickCounter
    (state_of (handle (movedTo Mouse 30 4 2000)
                 (clicked fresh (pt 3 4) 1000)))
  = 1.
Proof.
  exact (proj1 (proj2 (click_state_written_only_by_clicks
                         (movedTo Mouse 30 4 2000)
                         (clicked fresh (pt 3 4) 1000))
                  eq_refl)).
Defined.

(** X11.  Every move of a mouse or a pen ends by updating the hovered
    cell, once, with the cell of the move: forwarded or not, focused or
    not, read-only or not.  No other event updates it. *)
Theorem hovered_cell_updated_by_every_mouse_move (e : PointerEvent)
    (s : ControlInteractivity) :
  let isMouseMove :=
    match ev_kind e with
    | Moved => is_mouse_or_pen (ev_type e)
    | _ => false
    end in
  count_calls isUpdateHoveredCell (calls_of (handle e s))
  = (if isMouseMove then 1%nat else 0%nat)
  /\ (if isMouseMove
      then exists before,
          calls_of (handle e s)
          = before ++ [UpdateHoveredCell (ev_terminalPosition e)]
      else True).
Proof.
  destruct e as [k core point modifiers focused pos type].
  unfold handle, count_calls. cbn.
  destruct k.
  - split; [ | exact I].
    pose proof (PointerPressed_shape core point modifiers focused pos type s)
      as Hs.
    inversion Hs as [Hr | Hr | l Hl Hr | Hr | Hr | Hr | Hr | Hr];
      unfold calls_of; cbn; try reflexivity.
    destruct Hl as [-> | ->]; reflexivity.
  - destruct (device_cases type) as [Hty | ->].
    + rewrite Hty, (PointerMoved_mouse _ _ _ _ _ _ _ Hty). unfold calls_of.
      destruct (focused && negb (IsInReadOnlyMode core)
                && _CanSendVTMouseInput core modifiers); cbn.
      * split; [reflexivity | ]. eexists [_]. reflexivity.
      * destruct (focused && IsLeftButtonPressed (Properties point)); cbn.
        -- destruct (dragStarts core point s); cbn;
             (split; [reflexivity | ]).
           ++ eexists [_; _]. reflexivity.
           ++ eexists [_]. reflexivity.
        -- split; [reflexivity | ]. exists []. reflexivity.
    + rewrite PointerMoved_touch. cbn.
      destruct (focused && touchPans core point s); split;
        try reflexivity; exact I.
  - split; [ | exact I].
    destruct (device_cases type) as [Hty | ->].
    + rewrite (PointerReleased_mouse _ _ _ _ _ _ _ Hty).
      destruct (negb (IsInReadOnlyMode core)
                && _CanSendVTMouseInput core modifiers);
        [ | destruct (releaseCopies core point s)]; reflexivity.
    + reflexivity.
Qed.

Lemma PointerPressed_with_selection_help (core : Core)
    (point : PointerPoint) (modifiers : ControlKeyStates) (focused : bool)
    (terminalPosition : til_point) (type : PointerDeviceType)
    (s : ControlInteractivity) :
  HasSelection core = true ->
  let r := PointerPressed core point modifiers focused terminalPosition type s in
  _singleClickTouchdownPos (state_of r) = _singleClickTouchdownPos s
  /\ _singleClickTouchdownTerminalPos (state_of r)
     = _singleClickTouchdownTerminalPos s
  /\ _lastMouseClickPosNoSelection (state_of r)
     = _lastMouseClickPosNoSelection s.
Proof.
  intros Hsel r. subst r.
  pose proof (PointerPressed_shape core point modifiers focused
                terminalPosition type s) as Hs.
  inversion Hs as [Hr | Hr | l Hl Hr | Hr | Hr | Hr | Hr | Hr];
    unfold state_of; cbn; try (repeat split; reflexivity).
  unfold leftClicked. rewrite Hsel, andb_false_r.
  repeat split; reflexivity.
Qed.

(** X12.  A press while the core has a selection never starts a
    touchdown: whatever the device, buttons and modifiers, it leaves the
    touchdown point and cell, and the position of the last click made
    without a selection, as they were. *)
Theorem PointerPressed_with_selection_keeps_touchdown (core : Core)
    (point : PointerPoint) (modifiers : ControlKeyStates) (focused : bool)
    (terminalPosition : til_point) (type : PointerDeviceType)
    (s : ControlInteractivity) :
  HasSelection core = true ->
  let r := PointerPressed core point modifiers focused terminalPosition type s in
  _singleClickTouchdownPos (state_of r) = _singleClickTouchdownPos s
  /\ _singleClickTouchdownTerminalPos (state_of r)
     = _singleClickTouchdownTerminalPos s
  /\ _lastMouseClickPosNoSelection (state_of r)
     = _lastMouseClickPosNoSelection s.
Proof.
  intros Hsel.
  exact (PointerPressed_with_selection_help core point modifiers focused
           terminalPosition type s Hsel).
Qed.

Lemma PointerPressed_with_selection_keeps_touchdown_witness :
  _singleClickTouchdownPos
    (state_of (PointerPressed (withSelection false plainCore)
                 (pointAt 3 4 1000 (props true false LeftButtonPressed noRect))
                 noModifiers true (cell 1 2) Mouse fresh))
  = None.
Proof.
  exact (proj1 (PointerPressed_with_selection_keeps_touchdown
                  (withSelection false plainCore)
                  (pointAt 3 4 1000 (props true false LeftButtonPressed noRect))
                  noModifiers true (cell 1 2) Mouse fresh eq_refl)).
Defined.

(** X13.  Touch only pans: a touch event never throws, makes no call but
    at most one scroll request (and that only from a move on a focused
    control), and leaves the copy flag alone. *)
Theorem touch_event_only_pans (e : PointerEvent) (s : ControlInteractivity) :
  ev_type e = Touch ->
  result_of (handle e s) = Returned tt
  /\ (calls_of (handle e s) = []
      \/ (exists newValue,
             calls_of (handle e s) = [UserScrollViewport newValue])
         /\ ev_kind e = Moved /\ ev_focused e = true)
  /\ _selectionNeedsToBeCopied (state_of (handle e s))
     = _selectionNeedsToBeCopied s.
Proof.
  destruct e as [k core point modifiers focused pos type].
  unfold handle. cbn. intros ->.
  destruct k.
  - rewrite PointerPressed_touch. repeat split. left. reflexivity.
  - rewrite PointerMoved_touch.
    destruct focused; cbn [andb].
    + destruct (touchPans core point s).
      * split; [reflexivity | ]. split; [ | reflexivity].
        right. split; [eexists; reflexivity | split; reflexivity].
      * split; [reflexivity | ]. split; [left | ]; reflexivity.
    + split; [reflexivity | ]. split; [left | ]; reflexivity.
  - rewrite PointerReleased_touch. split; [reflexivity | ].
    split; [left | ]; reflexivity.
Qed.

Lemma touch_event_only_pans_witness :
  result_of (handle (movedTo Touch 100 130 2000)
               (set_touchAnchor (Some (pt 100 100)) fresh))
  = Returned tt.
Proof.
  exact (proj1 (touch_event_only_pans (movedTo Touch 100 130 2000)
                  (set_touchAnchor (Some (pt 100 100)) fresh) eq_refl)).
Defined.

(** ** Where the drag states come from *)

Lemma handle_anchor_origin (e : PointerEvent) (s : ControlInteractivity) :
  _touchAnchor (state_of (handle e s)) <> None ->
  _touchAnchor s <> None \/ isTouchPress e = true.
Proof.
  destruct e as [k core point modifiers focused pos type].
  destruct (device_cases type) as [Hty | ->].
  - intros H. left.
    rewrite (handle_mouse_keeps_anchor
               (Build_PointerEvent k core point modifiers focused pos type)
               s Hty) in H.
    exact H.
  - unfold handle, isTouchPress. cbn. destruct k.
    + intros _. right. reflexivity.
    + rewrite PointerMoved_touch. unfold touchPans.
      destruct (_touchAnchor s) eqn:Ea.
      * intros _. left. discriminate.
      * rewrite andb_false_r. unfold state_of. cbn. intros H. left.
        rewrite Ea in H. exact H.
    + rewrite PointerReleased_touch. unfold state_of. cbn.
      intros H. contradiction H. reflexivity.
Qed.

Lemma handle_touchdown_origin (e : PointerEvent) (s : ControlInteractivity) :
  _singleClickTouchdownPos (state_of (handle e s)) <> None ->
  _singleClickTouchdownPos s <> None \/ isLeftPressNoSelection e = true.
Proof.
  destruct e as [k core point modifiers focused pos type].
  unfold handle, isLeftPressNoSelection. cbn. destruct k.
  - destruct (HasSelection core) eqn:Hsel.
    + intros H. left.
      rewrite (proj1 (PointerPressed_with_selection_help core point modifiers
                        focused pos type s Hsel)) in H. exact H.
    + destruct (is_mouse_or_pen type) eqn:Hty.
      * destruct (IsLeftButtonPressed (Properties point)) eqn:Hl.
        -- intros _. right. reflexivity.
        -- intros H. left.
           assert (Hh : IsLeftButtonPressed (Properties point)
                        && IsCtrlPressed modifiers
                        && negb (empty (GetHyperlink core pos)) = false)
             by (rewrite Hl; reflexivity).
           destruct (_CanSendVTMouseInput core modifiers) eqn:Hvt.
           ++ rewrite (PointerPressed_forwarded _ _ _ _ _ _ _ Hty Hh Hvt) in H.
              exact H.
           ++ rewrite (PointerPressed_right _ _ _ _ _ _ _ Hty Hvt Hl) in H.
              destruct (IsRightButtonPressed (Properties point));
                [destruct (CopyOnSelect core || negb (HasSelection core)) | ];
                exact H.
      * destruct type; try discriminate Hty.
        rewrite PointerPressed_touch. intros H. left. exact H.
  - intros H. left.
    destruct (device_cases type) as [Hty | ->].
    + rewrite (PointerMoved_mouse _ _ _ _ _ _ _ Hty) in H.
      destruct (focused && negb (IsInReadOnlyMode core)
                && _CanSendVTMouseInput core modifiers); [exact H | ].
      destruct (focused && IsLeftButtonPressed (Properties point));
        [ | exact H].
      destruct (dragStarts core point s); [ | exact H].
      contradiction H. reflexivity.
    + rewrite PointerMoved_touch in H.
      destruct (focused && touchPans core point s); exact H.
  - intros H. left.
    destruct (device_cases type) as [Hty | ->].
    + rewrite (PointerReleased_mouse _ _ _ _ _ _ _ Hty) in H.
      destruct (negb (IsInReadOnlyMode core)
                && _CanSendVTMouseInput core modifiers); [exact H | ].
      contradiction H. reflexivity.
    + rewrite PointerReleased_touch in H. contradiction H. reflexivity.
Qed.

(** X14.  The two drag states have separate origins: after any stream of
    events from the constructed object, a touch anchor is set only if the
    stream has a touch press, and a touchdown is tracked only if the
    stream has a left press of a mouse or pen made while the core had no
    selection. *)
Theorem drag_states_have_their_press (es : list PointerEvent)
    (multiClickTimer multiClickCounter : Z) :
  let s := run es (constructed multiClickTimer multiClickCounter) in
  (_touchAnchor s <> None -> existsb isTouchPress es = true)
  /\ (_singleClickTouchdownPos s <> None ->
      existsb isLeftPressNoSelection es = true).
Proof.
  assert (Ha : forall es s,
             _touchAnchor (run es s) <> None ->
             _touchAnchor s <> None \/ existsb isTouchPress es = true).
  { induction es0 as [ | e es0 IH]; intros s H; cbn in *.
    - left. exact H.
    - destruct (IH _ H) as [H1 | H1].
      + destruct (handle_anchor_origin e s H1) as [H2 | H2].
        * left. exact H2.
        * right. rewrite H2. reflexivity.
      + right. rewrite H1. apply orb_true_r. }
  assert (Ht : forall es s,
             _singleClickTouchdownPos (run es s) <> None ->
             _singleClickTouchdownPos s <> None
             \/ existsb isLeftPressNoSelection es = true).
  { induction es0 as [ | e es0 IH]; intros s H; cbn in *.
    - left. exact H.
    - destruct (IH _ H) as [H1 | H1].
      + destruct (handle_touchdown_origin e s H1) as [H2 | H2].
        * left. exact H2.
        * right. rewrite H2. reflexivity.
      + right. rewrite H1. apply orb_true_r. }
  intros s. subst s. split; intros H.
  - destruct (Ha _ _ H) as [H1 | H1]; [contradiction H1; reflexivity | exact H1].
  - destruct (Ht _ _ H) as [H1 | H1]; [contradiction H1; reflexivity | exact H1].
Qed.

Lemma drag_states_have_their_press_witness :
  existsb isTouchPress [pressedAt Touch 100 100 1000; pressedAt Mouse 3 4 2000]
  = true.
Proof.
  apply (proj1 (drag_states_have_their_press
                  [pressedAt Touch 100 100 1000; pressedAt Mouse 3 4 2000]
                  500000 0)).
  vm_compute. discriminate.
Defined.

(** ** Copy on select over a drag *)

(** X15.  A drag and the release that ends it: after a move of a mouse
    or a pen on a focused control with the left button held and not
    forwarded, a release of the left button that is not forwarded, with
    copy-on-select on, copies the selection exactly once, not collapsed to
    one line, and leaves the copy flag down and no touchdown. *)
Theorem drag_then_release_copies_once (core core' : Core)
    (point point' : PointerPoint) (modifiers modifiers' : ControlKeyStates)
    (focused' : bool) (terminalPosition terminalPosition' : til_point)
    (type type' : PointerDeviceType) (s : ControlInteractivity) :
  is_mouse_or_pen type = true ->
  IsLeftButtonPressed (Properties point) = true ->
  negb (IsInReadOnlyMode core) && _CanSendVTMouseInput core modifiers = false ->
  is_mouse_or_pen type' = true ->
  negb (IsInReadOnlyMode core') && _CanSendVTMouseInput core' modifiers' = false ->
  CopyOnSelect core' = true ->
  UpdateKind (Properties point') = LeftButtonReleased ->
  let dragged :=
    state_of (PointerMoved core point modifiers true terminalPosition type s) in
  let r := PointerReleased core' point' modifiers' focused' terminalPosition'
             type' dragged in
  calls_of r = [CoreCopySelectionToClipboard false None]
  /\ _selectionNeedsToBeCopied (state_of r) = false
  /\ _singleClickTouchdownPos (state_of r) = None.
Proof.
  intros Hty Hl Hvt Hty' Hvt' Hcos Hk dragged r. subst dragged r.
  rewrite (PointerMoved_mouse _ _ _ _ _ _ _ Hty).
  cbn [andb]. rewrite Hvt, Hl.
  rewrite (PointerReleased_mouse _ _ _ _ _ _ _ Hty'), Hvt'.
  unfold releaseCopies. rewrite Hcos, Hk.
  unfold state_of, calls_of. cbn.
  repeat split; reflexivity.
Qed.

Lemma drag_then_release_copies_once_witness :
  calls_of
    (PointerReleased (withSelection true plainCore)
       (pointAt 30 4 3000 (props false false LeftButtonReleased noRect))
       noModifiers true (cell 4 2) Mouse
       (state_of (PointerMoved plainCore
                    (pointAt 30 4 2000 (props true false Other noRect))
                    noModifiers true (cell 4 2) Mouse fresh)))
  = [CoreCopySelectionToClipboard false None].
Proof.
  exact (proj1 (drag_then_release_copies_once plainCore
                  (withSelection true plainCore)
                  (pointAt 30 4 2000 (props true false Other noRect))
                  (pointAt 30 4 3000 (props false false LeftButtonReleased noRect))
                  noModifiers noModifiers true (cell 4 2) (cell 4 2)
                  Mouse Mouse fresh
                  eq_refl eq_refl eq_refl eq_refl eq_refl eq_refl eq_refl)).
Defined.

(** X16.  The copy of copy-on-select is not repeated: after a release of
    the left button of a mouse or pen that is not forwarded, with
    copy-on-select on, the copy flag is down whether or not a copy was
    made, and the next release, whatever it is, copies nothing. *)
Theorem release_after_release_copies_nothing (core core' : Core)
    (point point' : PointerPoint) (modifiers modifiers' : ControlKeyStates)
    (focused focused' : bool) (terminalPosition terminalPosition' : til_point)
    (type type' : PointerDeviceType) (s : ControlInteractivity) :
  is_mouse_or_pen type = true ->
  negb (IsInReadOnlyMode core) && _CanSendVTMouseInput core modifiers = false ->
  CopyOnSelect core = true ->
  UpdateKind (Properties point) = LeftButtonReleased ->
  let released :=
    state_of (PointerReleased core point modifiers focused terminalPosition
                type s) in
  _selectionNeedsToBeCopied released = false
  /\ count_calls isCopy
       (calls_of (PointerReleased core' point' modifiers' focused'
                    terminalPosition' type' released)) = 0%nat.
Proof.
  intros Hty Hvt Hcos Hk released.
  assert (Hflag : _selectionNeedsToBeCopied released = false).
  { subst released.
    rewrite (PointerReleased_mouse _ _ _ _ _ _ _ Hty), Hvt.
    unfold releaseCopies. rewrite Hcos, Hk. unfold state_of. cbn.
    destruct (_selectionNeedsToBeCopied s) eqn:Ef; cbn;
      [reflexivity | exact Ef]. }
  split; [exact Hflag | ].
  destruct (device_cases type') as [Hty' | ->].
  - rewrite (PointerReleased_mouse _ _ _ _ _ _ _ Hty').
    unfold releaseCopies. rewrite Hflag, andb_false_r.
    destruct (negb (IsInReadOnlyMode core')
              && _CanSendVTMouseInput core' modifiers'); reflexivity.
  - reflexivity.
Qed.

Lemma release_after_release_copies_nothing_witness :
  let release :=
    PointerReleased (withSelection true plainCore)
      (pointAt 30 4 3000 (props false false LeftButtonReleased noRect))
      noModifiers true (cell 4 2) Mouse in
  count_calls isCopy
    (calls_of (release (state_of
                 (release (set_selectionNeedsToBeCopied true fresh)))))
  = 0%nat.
Proof.
  exact (proj2 (release_after_release_copies_nothing
                  (withSelection true plainCore) (withSelection true plainCore)
                  (pointAt 30 4 3000 (props false false LeftButtonReleased noRect))
                  (pointAt 30 4 3000 (props false false LeftButtonReleased noRect))
                  noModifiers noModifiers true true (cell 4 2) (cell 4 2)
                  Mouse Mouse (set_selectionNeedsToBeCopied true fresh)
                  eq_refl eq_refl eq_refl eq_refl)).
Defined.

(** ** Bursts of clicks *)

Lemma optPoint_neqb_same (p : Point) :
  Point_eqb p p = true -> optPoint_neqb (Some p) p = false.
Proof. intros H. unfold optPoint_neqb, Point_neqb. rewrite H. reflexivity. Qed.

Lemma nextCount_continues (s : ControlInteractivity) (p : Point) (t : Z) :
  Point_eqb p p = true ->
  _lastMouseClickPos s = Some p ->
  t - _lastMouseClickTimestamp s <= _multiClickTimer s ->
  nextCount s p t = (_multiClickCounter s + 1) mod UINT_MOD.
Proof.
  intros Hp Hlast Hwin. unfold nextCount.
  rewrite Hlast, (optPoint_neqb_same p Hp).
  apply Z.ltb_ge in Hwin. rewrite Hwin. reflexivity.
Qed.

Lemma clickAll_continues (p : Point) (clickTimes : list Z) :
  Point_eqb p p = true ->
  forall s,
    _lastMouseClickPos s = Some p ->
    paced (_multiClickTimer s) (_lastMouseClickTimestamp s) clickTimes = true ->
    0 <= _multiClickCounter s ->
    _multiClickCounter s + Z.of_nat (List.length clickTimes) < UINT_MOD ->
    exists s',
      clickAll p clickTimes s
      = (Returned (map (fun i => _multiClickCounter s + Z.of_nat i)
                       (seq 1 (List.length clickTimes))), s', []).
Proof.
  intros Hp.
  induction clickTimes as [ | t rest IH]; intros s Hlast Hpaced Hc Hlen.
  - exists s. reflexivity.
  - cbn [paced] in Hpaced.
    apply andb_true_iff in Hpaced. destruct Hpaced as [Hpaced Hrest].
    apply andb_true_iff in Hpaced. destruct Hpaced as [Hle Hwin].
    apply Z.leb_le in Hle. apply Z.leb_le in Hwin.
    cbn [List.length] in Hlen. rewrite Nat2Z.inj_succ in Hlen.
    change UINT_MOD with 4294967296 in *.
    assert (Hn : nextCount s p t = _multiClickCounter s + 1).
    { rewrite (nextCount_continues s p t Hp Hlast Hwin).
      change UINT_MOD with 4294967296. apply Z.mod_small. lia. }
    destruct (IH (clicked s p t)) as [s' Hs'].
    + reflexivity.
    + exact Hrest.
    + change (_multiClickCounter (clicked s p t)) with (nextCount s p t).
      lia.
    + change (_multiClickCounter (clicked s p t)) with (nextCount s p t).
      lia.
    + exists s'. cbn [clickAll].
      rewrite (bind_returned _ _ _ _ _ _ (NumberOfClicks_returns _ _ _ Hle)).
      rewrite (bind_returned _ _ _ _ _ _ Hs').
      change (_multiClickCounter (clicked s p t)) with (nextCount s p t).
      unfold result_of, state_of, calls_of, ret. cbn [fst snd app].
      rewrite Hn. cbn [List.length seq map].
      rewrite <- (seq_shift (List.length rest) 1), map_map.
      do 3 f_equal.
      apply f_equal2; [reflexivity | ].
      apply map_ext. intros i. rewrite Nat2Z.inj_succ. lia.
Qed.

(** X17.  A burst of clicks counts 1, 2, 3, ...: a click at a new place
    (stamped no earlier than the stored click) followed by clicks at the
    same place, each no earlier than the one before and within the
    multi-click timer of it, are all registered, and the n-th gets count
    n, as long as the 32-bit counter does not wrap. *)
Theorem click_burst_counts_up (s : ControlInteractivity) (p : Point)
    (t0 : Z) (clickTimes : list Z) :
  _lastMouseClickTimestamp s <= t0 ->
  optPoint_neqb (_lastMouseClickPos s) p = true ->
  Point_eqb p p = true ->
  paced (_multiClickTimer s) t0 clickTimes = true ->
  Z.of_nat (List.length clickTimes) + 1 < UINT_MOD ->
  result_of (clickAll p (t0 :: clickTimes) s)
  = Returned (map Z.of_nat (seq 1 (S (List.length clickTimes)))).
Proof.
  intros Ht0 Hnew Hp Hpaced Hlen.
  assert (Hn : nextCount s p t0 = 1)
    by (unfold nextCount; rewrite Hnew; reflexivity).
  destruct (clickAll_continues p clickTimes Hp (clicked s p t0))
    as [s' Hs'].
  - reflexivity.
  - exact Hpaced.
  - change (_multiClickCounter (clicked s p t0)) with (nextCount s p t0).
    lia.
  - change (_multiClickCounter (clicked s p t0)) with (nextCount s p t0).
    lia.
  - cbn [clickAll].
    rewrite (bind_returned _ _ _ _ _ _ (NumberOfClicks_returns _ _ _ Ht0)).
    rewrite (bind_returned _ _ _ _ _ _ Hs').
    change (_multiClickCounter (clicked s p t0)) with (nextCount s p t0).
    unfold result_of, ret. cbn [fst snd].
    rewrite Hn. cbn [seq map].
    rewrite <- (seq_shift (List.length clickTimes) 1), map_map.
    f_equal. apply f_equal2; [reflexivity | ].
    apply map_ext. intros i. rewrite Nat2Z.inj_succ. lia.
Qed.

Lemma click_burst_counts_up_witness :
  result_of (clickAll (pt 3 4) [1000; 200000; 400000; 900000] fresh)
  = Returned [1; 2; 3; 4].
Proof.
  apply (click_burst_counts_up fresh (pt 3 4) 1000 [200000; 400000; 900000]);
    try reflexivity.
  cbn. lia.
Defined.

(** X18.  The multi-click timer is the double-click time in
    microseconds, and it is inclusive: after [Initialize] with a
    double-click time of up to 4294967 ms (beyond which the 32-bit
    product wraps) and a first click, a second click at the same place
    exactly that long after it still continues the burst, and one
    microsecond later starts a new one. *)
Theorem double_click_time_is_inclusive (GetDoubleClickTime : Z)
    (s : ControlInteractivity) (p : Point) (t0 : Z) :
  0 <= GetDoubleClickTime <= 4294967 ->
  Point_eqb p p = true ->
  _lastMouseClickTimestamp s <= t0 ->
  let s0 := state_of (Initialize GetDoubleClickTime s) in
  let s1 := state_of (_NumberOfClicks p t0 s0) in
  _multiClickTimer s0 = GetDoubleClickTime * 1000
  /\ result_of (_NumberOfClicks p (t0 + GetDoubleClickTime * 1000) s1)
     = Returned ((_multiClickCounter s1 + 1) mod UINT_MOD)
  /\ result_of (_NumberOfClicks p (t0 + GetDoubleClickTime * 1000 + 1) s1)
     = Returned 1.
Proof.
  intros Hms Hp Ht0 s0 s1.
  assert (Htimer : _multiClickTimer s0 = GetDoubleClickTime * 1000).
  { subst s0. unfold Initialize, modify, state_of. cbn [fst snd].
    cbn [set_multiClickTimer _multiClickTimer].
    change UINT_MOD with 4294967296. apply Z.mod_small. lia. }
  assert (Hs1 : s1 = clicked s0 p t0).
  { subst s1. rewrite (NumberOfClicks_returns s0 p t0 Ht0). reflexivity. }
  split; [exact Htimer | ].
  assert (Htimer1 : _multiClickTimer s1 = GetDoubleClickTime * 1000)
    by (rewrite Hs1; exact Htimer).
  assert (Hlast1 : _lastMouseClickTimestamp s1 = t0)
    by (rewrite Hs1; reflexivity).
  assert (Hpos1 : _lastMouseClickPos s1 = Some p)
    by (rewrite Hs1; reflexivity).
  split.
  - rewrite NumberOfClicks_returns by lia.
    unfold result_of. cbn [fst]. f_equal.
    apply nextCount_continues; [exact Hp | exact Hpos1 | lia].
  - rewrite NumberOfClicks_returns by lia.
    unfold result_of. cbn [fst]. f_equal. unfold nextCount.
    rewrite Hpos1, (optPoint_neqb_same p Hp), Htimer1, Hlast1.
    destruct (Z.ltb_spec (GetDoubleClickTime * 1000)
                (t0 + GetDoubleClickTime * 1000 + 1 - t0)); [reflexivity | lia].
Qed.

Lemma double_click_time_is_inclusive_witness :
  let s1 := state_of (_NumberOfClicks (pt 3 4) 1000
                        (state_of (Initialize 500 (constructed 0 0)))) in
  result_of (_NumberOfClicks (pt 3 4) 501000 s1) = Returned 2
  /\ result_of (_NumberOfClicks (pt 3 4) 501001 s1) = Returned 1.
Proof.
  destruct (double_click_time_is_inclusive 500 (constructed 0 0) (pt 3 4) 1000)
    as (_ & H2 & H1); try reflexivity.
  - lia.
  - cbn. lia.
  - split; [exact H2 | exact H1].
Defined.

(** X19.  Opening a link counts as a click: after a Ctrl+left press over
    a hyperlink, a plain left press at the same place within the timer,
    handled in the control, continues the burst; the terminal is clicked
    with the count after that of the link click (mapped into 1..3), so a
    click right after opening a link is a double click. *)
Theorem click_after_hyperlink_click_continues_burst (core core' : Core)
    (point point' : PointerPoint) (modifiers modifiers' : ControlKeyStates)
    (focused focused' : bool) (terminalPosition terminalPosition' : til_point)
    (type type' : PointerDeviceType) (s : ControlInteractivity) :
  is_mouse_or_pen type = true ->
  IsLeftButtonPressed (Properties point) = true ->
  IsCtrlPressed modifiers = true ->
  empty (GetHyperlink core terminalPosition) = false ->
  _lastMouseClickTimestamp s <= Timestamp point ->
  is_mouse_or_pen type' = true ->
  IsLeftButtonPressed (Properties point') = true ->
  IsCtrlPressed modifiers'
    && negb (empty (GetHyperlink core' terminalPosition')) = false ->
  _CanSendVTMouseInput core' modifiers' = false ->
  Position point' = Position point ->
  Point_eqb (Position point) (Position point) = true ->
  Timestamp point <= Timestamp point' ->
  Timestamp point' - Timestamp point <= _multiClickTimer s ->
  let first := PointerPressed core point modifiers focused terminalPosition
                 type s in
  let second := PointerPressed core' point' modifiers' focused'
                  terminalPosition' type' (state_of first) in
  exists isOnOriginalPosition,
    calls_of second
    = [LeftClickOnTerminal terminalPosition'
         (multiClickMapper ((_multiClickCounter (state_of first) + 1)
                            mod UINT_MOD))
         (IsAltPressed modifiers') (IsShiftPressed modifiers')
         isOnOriginalPosition (_selectionNeedsToBeCopied s)].
Proof.
  intros Hty Hl Hc Hh Ht Hty' Hl' Hc' Hvt' Hpos Hp Hle Hwin first second.
  assert (Hh1 : IsLeftButtonPressed (Properties point) && IsCtrlPressed modifiers
                && negb (empty (GetHyperlink core terminalPosition)) = true)
    by (rewrite Hl, Hc, Hh; reflexivity).
  assert (Hfirst : state_of first
                   = clicked s (Position point) (Timestamp point)).
  { subst first. rewrite (PointerPressed_hyperlink _ _ _ _ _ _ _ Hty Hh1).
    destruct (Z.ltb_spec (Timestamp point) (_lastMouseClickTimestamp s));
      [lia | reflexivity]. }
  assert (Hh2 : IsLeftButtonPressed (Properties point')
                && IsCtrlPressed modifiers'
                && negb (empty (GetHyperlink core' terminalPosition')) = false)
    by (rewrite Hl', <- andb_assoc; exact Hc').
  subst second. revert Hfirst. generalize (state_of first). clear first.
  intros s1 Hs1.
  rewrite (PointerPressed_left _ _ _ _ _ _ _ Hty' Hh2 Hvt' Hl').
  assert (Hlast : _lastMouseClickTimestamp s1 = Timestamp point)
    by (rewrite Hs1; reflexivity).
  rewrite Hlast.
  destruct (Z.ltb_spec (Timestamp point') (Timestamp point)); [lia | ].
  unfold calls_of, leftClickCall. cbn [snd].
  change (_multiClickCounter (clicked s1 (Position point') (Timestamp point')))
    with (nextCount s1 (Position point') (Timestamp point')).
  rewrite (nextCount_continues s1 (Position point') (Timestamp point')).
  - assert (Hflag : _selectionNeedsToBeCopied s1 = _selectionNeedsToBeCopied s)
      by (rewrite Hs1; reflexivity).
    rewrite Hflag. eexists. reflexivity.
  - rewrite Hpos. exact Hp.
  - rewrite Hs1, Hpos. reflexivity.
  - rewrite Hs1. cbn. exact Hwin.
Qed.

Lemma click_after_hyperlink_click_continues_burst_witness :
  let first :=
    PointerPressed (withHyperlink "https://example.com" plainCore)
      (pointAt 3 4 1000 (props true false LeftButtonPressed noRect))
      ctrlHeld true (cell 1 2) Mouse fresh in
  calls_of
    (PointerPressed plainCore
       (pointAt 3 4 200000 (props true false LeftButtonPressed noRect))
       noModifiers true (cell 1 2) Mouse (state_of first))
  = [LeftClickOnTerminal (cell 1 2) 2 false false false false].
Proof.
  destruct (click_after_hyperlink_click_continues_burst
              (withHyperlink "https://example.com" plainCore) plainCore
              (pointAt 3 4 1000 (props true false LeftButtonPressed noRect))
              (pointAt 3 4 200000 (props true false LeftButtonPressed noRect))
              ctrlHeld noModifiers true true (cell 1 2) (cell 1 2)
              Mouse Mouse fresh) as [b Hb]; try reflexivity.
  all: cbn; lia.
Defined.

(** X20.  A drag that begins with a second or third click does not move
    the anchor: after a left press handled in the control whose click
    count does not map to 1, no touchdown being tracked, a move of the
    drag only extends the end of the selection (and updates the hovered
    cell), however far the cursor goes. *)
Theorem multi_click_drag_keeps_anchor (core core' : Core)
    (point point' : PointerPoint) (modifiers modifiers' : ControlKeyStates)
    (focused : bool) (terminalPosition terminalPosition' : til_point)
    (type type' : PointerDeviceType) (s : ControlInteractivity) :
  is_mouse_or_pen type = true ->
  IsLeftButtonPressed (Properties point) = true ->
  IsCtrlPressed modifiers
    && negb (empty (GetHyperlink core terminalPosition)) = false ->
  _CanSendVTMouseInput core modifiers = false ->
  _lastMouseClickTimestamp s <= Timestamp point ->
  multiClickMapper (nextCount s (Position point) (Timestamp point)) <> 1 ->
  _singleClickTouchdownPos s = None ->
  is_mouse_or_pen type' = true ->
  IsLeftButtonPressed (Properties point') = true ->
  negb (IsInReadOnlyMode core') && _CanSendVTMouseInput core' modifiers' = false ->
  let pressed :=
    state_of (PointerPressed core point modifiers focused terminalPosition
                type s) in
  PointerMoved core' point' modifiers' true terminalPosition' type' pressed
  = (Returned tt, set_selectionNeedsToBeCopied true pressed,
     [SetEndSelectionPoint terminalPosition';
      UpdateHoveredCell terminalPosition']).
Proof.
  intros Hty Hl Hc Hvt Ht Hmap Htd Hty' Hl' Hvt' pressed.
  assert (Hh : IsLeftButtonPressed (Properties point) && IsCtrlPressed modifiers
               && negb (empty (GetHyperlink core terminalPosition)) = false)
    by (rewrite Hl, <- andb_assoc; exact Hc).
  assert (Hnone : _singleClickTouchdownPos pressed = None).
  { subst pressed.
    rewrite (PointerPressed_left _ _ _ _ _ _ _ Hty Hh Hvt Hl).
    destruct (Z.ltb_spec (Timestamp point) (_lastMouseClickTimestamp s));
      [lia | ].
    unfold state_of, leftClicked. cbn [fst snd].
    change (_multiClickCounter (clicked s (Position point) (Timestamp point)))
      with (nextCount s (Position point) (Timestamp point)).
    apply Z.eqb_neq in Hmap. rewrite Hmap. cbn [andb]. exact Htd. }
  rewrite (PointerMoved_mouse _ _ _ _ _ _ _ Hty').
  cbn [andb]. rewrite Hvt', Hl'.
  unfold dragStarts. rewrite Hnone. reflexivity.
Qed.

Lemma multi_click_drag_keeps_anchor_witness :
  calls_of
    (PointerMoved plainCore
       (pointAt 90 4 300000 (props true false Other noRect))
       noModifiers true (cell 9 2) Mouse
       (state_of
          (PointerPressed plainCore
             (pointAt 3 4 200000 (props true false LeftButtonPressed noRect))
             noModifiers true (cell 1 2) Mouse
             (clicked fresh (pt 3 4) 1000))))
  = [SetEndSelectionPoint (cell 9 2); UpdateHoveredCell (cell 9 2)].
Proof.
  rewrite (multi_click_drag_keeps_anchor plainCore plainCore
             (pointAt 3 4 200000 (props true false LeftButtonPressed noRect))
             (pointAt 90 4 300000 (props true false Other noRect))
             noModifiers noModifiers true (cell 1 2) (cell 9 2)
             Mouse Mouse (clicked fresh (pt 3 4) 1000)); try reflexivity.
  - cbn. lia.
  - vm_compute. discriminate.
Defined.

(** ** A contact that does not move *)

Lemma sub_self_abs (y : F32.float) :
  F32.abs (F32.sub y y) = S754_zero false \/ F32.abs (F32.sub y y) = S754_nan.
Proof.
  destruct y as [sy | sy | | sy m e].
  - left. destruct sy; reflexivity.
  - right. destruct sy; reflexivity.
  - right. reflexivity.
  - left. unfold F32.sub, SFsub. rewrite Z.sub_diag. reflexivity.
Qed.

Lemma halfRow_sign (fontSize : til_size) :
  0 <= height fontSize ->
  signbit (halfRow fontSize) = false /\ isnan (halfRow fontSize) = false.
Proof.
  intros Hh. unfold halfRow.
  change (F32.of_Z 2) with (S754_finite false 8388608 (-22)).
  destruct (Z.eq_dec (height fontSize) 0) as [H0 | Hn0].
  - rewrite H0. split; reflexivity.
  - destruct (of_Z_pos_sign (height fontSize)) as [Hs Hn]; [lia | ].
    destruct (F32.of_Z (height fontSize)) as [s | s | | s mh eh];
      cbn in Hs, Hn; try discriminate Hn; subst s.
    + split; reflexivity.
    + split; reflexivity.
    + apply (div_sign false mh eh 8388608 (-22)).
Qed.

(** X21.  A contact level with the anchor never pans: a touch move
    whose contact has the vertical coordinate of the anchor requests no
    scroll and changes nothing, whatever the (non-negative) cell height;
    so the move that has just panned, delivered again, does nothing. *)
Theorem touch_move_level_with_anchor_does_nothing (core : Core)
    (point : PointerPoint) (modifiers : ControlKeyStates) (focused : bool)
    (terminalPosition : til_point) (s : ControlInteractivity)
    (anchor : Point) :
  _touchAnchor s = Some anchor ->
  rY (ContactRect (Properties point)) = Y anchor ->
  0 <= height (fontSizeInDips core) ->
  PointerMoved core point modifiers focused terminalPosition Touch s
  = (Returned tt, s, []).
Proof.
  intros Ha Hy Hh. rewrite PointerMoved_touch.
  unfold touchPans. rewrite Ha.
  change (Y (contactPoint point)) with (rY (ContactRect (Properties point))).
  rewrite Hy.
  destruct (halfRow_sign (fontSizeInDips core) Hh) as [Hs Hn].
  assert (Hlt : F32.ltb (halfRow (fontSizeInDips core))
                  (F32.abs (F32.sub (Y anchor) (Y anchor))) = false).
  { destruct (sub_self_abs (Y anchor)) as [-> | ->].
    - destruct (halfRow (fontSizeInDips core)) as [hs | hs | | hs hm he];
        cbn in Hs, Hn; try discriminate Hn; subst; reflexivity.
    - destruct (halfRow (fontSizeInDips core)); reflexivity. }
  rewrite Hlt, andb_false_r. reflexivity.
Qed.

Lemma touch_move_level_with_anchor_does_nothing_witness :
  let move :=
    PointerMoved plainCore
      (pointAt 0 0 2000 (props false false Other (rectAt 100 112)))
      noModifiers true (cell 0 0) Touch in
  let panned := state_of (move (set_touchAnchor (Some (pt 100 100)) fresh)) in
  move panned = (Returned tt, panned, []).
Proof.
  apply (touch_move_level_with_anchor_does_nothing plainCore
           (pointAt 0 0 2000 (props false false Other (rectAt 100 112)))
           noModifiers true (cell 0 0)
           (state_of
              (PointerMoved plainCore
                 (pointAt 0 0 2000 (props false false Other (rectAt 100 112)))
                 noModifiers true (cell 0 0) Touch
                 (set_touchAnchor (Some (pt 100 100)) fresh)))
           (pt 100 112)); try reflexivity.
  cbn. lia.
Defined.
